(** * Connection configuration and path discovery of rdctl / Rancher Desktop

    A shallow embedding of
    - [src/go/rdctl/pkg/config/config.go] (connection resolution and the
      WSL probe),
    - the Go [utils.DevMode] function,
    - the TypeScript [paths] module ([UnixPaths], [WindowsPaths], [getPaths]),
    followed by the properties of the specification that concern them.

    Go globals are threaded as an explicit state record; the operating
    system and the standard libraries the code calls ([os.ReadFile],
    [json.Unmarshal], [os.Lstat], [os.ReadDir], [spawnSync], ...) are
    arguments of the embedded functions, so every theorem quantifies over
    them. *)

From Stdlib Require Import ZArith Ascii String List Lia DecimalString.
From stdpp Require Import gmap strings list.

Local Open Scope string_scope.

(** ** Go runtime: results, errors, the [os] and [strconv] functions used *)

Module Go.

(** The [syscall.Errno] values a file operation can report. *)
Inductive Errno : Type :=
| ENOENT | EACCES | EISDIR | ENOTDIR | ELOOP | EIO.

(** Go [error] values that occur in the embedded code. *)
Inductive error : Type :=
| PathError (Op Path : string) (errno : Errno)
    (* fs.PathError, what the os package returns *)
| JSONError (msg : string)
    (* json.SyntaxError, json.UnmarshalTypeError, ... *)
| WrapError (format : string) (args : list string) (wrapped : error)
    (* fmt.Errorf(format, args..., wrapped): %q verbs, then one %w verb *)
| ErrMainProcessNotRunning.
    (* errors.New("main process not running") *)

(** A Go pair [(value, error)] of which exactly one side is meaningful. *)
Inductive result (A : Type) : Type :=
| Ok (a : A)
| Err (e : error).

Arguments Ok {A} a.
Arguments Err {A} e.

(** The sentinel [os.ErrNotExist] is matched by the [Is] method of
    [syscall.Errno]: only [ENOENT] is "does not exist". *)
Definition Errno_IsNotExist (e : Errno) : bool :=
  match e with ENOENT => true | _ => false end.

(** [errors.Is(err, os.ErrNotExist)]: follows the chain of wrapped errors;
    a [PathError] unwraps to its errno. *)
Fixpoint Is_ErrNotExist (e : error) : bool :=
  match e with
  | PathError _ _ errno => Errno_IsNotExist errno
  | WrapError _ _ w => Is_ErrNotExist w
  | JSONError _ => false
  | ErrMainProcessNotRunning => false
  end.

(** [errors.Is(err, ErrMainProcessNotRunning)]: the sentinel is compared by
    identity along the chain. *)
Fixpoint Is_ErrMainProcessNotRunning (e : error) : bool :=
  match e with
  | ErrMainProcessNotRunning => true
  | WrapError _ _ w => Is_ErrMainProcessNotRunning w
  | PathError _ _ _ => false
  | JSONError _ => false
  end.

(** [os.IsNotExist(err)]: unlike [errors.Is] it only looks through the os
    error types, and it is false for a nil error. *)
Definition os_IsNotExist (e : option error) : bool :=
  match e with
  | Some (PathError _ _ errno) => Errno_IsNotExist errno
  | _ => false
  end.

Definition Errno_Error (e : Errno) : string :=
  match e with
  | ENOENT => "no such file or directory"
  | EACCES => "permission denied"
  | EISDIR => "is a directory"
  | ENOTDIR => "not a directory"
  | ELOOP => "too many levels of symbolic links"
  | EIO => "input/output error"
  end.

(** The [Error] method of [PathError]:
    [e.Op + " " + e.Path + ": " + e.Err.Error()]. *)
Definition PathError_Error (Op Path : string) (errno : Errno) : string :=
  Op +:+ " " +:+ Path +:+ ": " +:+ Errno_Error errno.

(** [strconv.Itoa]: the decimal representation, with a minus sign for
    negative numbers. *)
Definition Itoa (n : Z) : string := NilZero.string_of_int (Z.to_int n).

(** What the file system answers when a file is read as a whole. *)
Inductive ReadOutcome : Type :=
| Content (bytes : string)
| Failure (Op : string) (errno : Errno).

Definition FileSystem : Type := string -> ReadOutcome.

(** [os.ReadFile]: the content, or a [PathError] that names the
    operation that failed and the path that was asked for. *)
Definition ReadFile (fs : FileSystem) (name : string) : result string :=
  match fs name with
  | Content bytes => Ok bytes
  | Failure Op errno => Err (PathError Op name errno)
  end.

End Go.

(** ** config.go: connection resolution *)

Module Config.
Import Go.

(** [CLIConfig]: the JSON data read from the config file. A member the
    file does not mention keeps Go's zero value. *)
Module CLIConfig.
Record t : Type := Build { User : string; Password : string; Port : Z }.
End CLIConfig.

(** [ConnectionInfo]: the parameters needed to connect to the HTTP server.
    All four are strings; the empty string means "not given". *)
Module ConnectionInfo.
Record t : Type :=
  Build { User : string; Password : string; Host : string; Port : string }.

Definition setUser (v : string) (c : t) : t :=
  Build v (Password c) (Host c) (Port c).
Definition setPassword (v : string) (c : t) : t :=
  Build (User c) v (Host c) (Port c).
Definition setHost (v : string) (c : t) : t :=
  Build (User c) (Password c) v (Port c).
Definition setPort (v : string) (c : t) : t :=
  Build (User c) (Password c) (Host c) v.
End ConnectionInfo.

(** The package-level variables. [connectionSettings] holds the command
    line overrides before resolution and the resolved descriptor after;
    [configPath] is the [--config-path] flag. *)
Record Globals : Type := {
  connectionSettings : ConnectionInfo.t;
  configPath : string;
  DefaultConfigPath : string
}.

Definition setConnectionSettings (c : ConnectionInfo.t) (g : Globals) : Globals :=
  {| connectionSettings := c;
     configPath := configPath g;
     DefaultConfigPath := DefaultConfigPath g |}.

Definition setConfigPath (p : string) (g : Globals) : Globals :=
  {| connectionSettings := connectionSettings g;
     configPath := p;
     DefaultConfigPath := DefaultConfigPath g |}.

(** The world outside the process as [GetConnectionInfo] sees it: the file
    system, and [json.Unmarshal] into a zero [CLIConfig]. *)
Record World : Type := {
  files : FileSystem;
  Unmarshal : string -> result CLIConfig.t
}.

Definition insufficientConnectionInfo (g : Globals) : bool :=
  let c := connectionSettings g in
  String.eqb (ConnectionInfo.Port c) ""
  || String.eqb (ConnectionInfo.User c) ""
  || String.eqb (ConnectionInfo.Password c) "".

(** [finishConnectionSettings] returns [(isImmediateError, err)] and
    updates the globals; [None] is a nil error. ([PrototypeGetConnectionInfo],
    an unfinished replacement that no code calls, is not embedded.) *)
Definition finishConnectionSettings (w : World) (g : Globals)
  : Globals * (bool * option error) :=
  let g :=
    if String.eqb (configPath g) "" then setConfigPath (DefaultConfigPath g) g
    else g in
  let g :=
    if String.eqb (ConnectionInfo.Host (connectionSettings g)) ""
    then setConnectionSettings
           (ConnectionInfo.setHost "127.0.0.1" (connectionSettings g)) g
    else g in
  match ReadFile (files w) (configPath g) with
  | Err err =>
      (g, (negb (String.eqb (configPath g) (DefaultConfigPath g)), Some err))
  | Ok content =>
      match Unmarshal w content with
      | Err err =>
          (g, (negb (String.eqb (configPath g) (DefaultConfigPath g)),
               Some (WrapError "error in config file %q: %w" [configPath g] err)))
      | Ok settings =>
          let g :=
            if String.eqb (ConnectionInfo.User (connectionSettings g)) ""
            then setConnectionSettings
                   (ConnectionInfo.setUser (CLIConfig.User settings)
                      (connectionSettings g)) g
            else g in
          let g :=
            if String.eqb (ConnectionInfo.Password (connectionSettings g)) ""
            then setConnectionSettings
                   (ConnectionInfo.setPassword (CLIConfig.Password settings)
                      (connectionSettings g)) g
            else g in
          let g :=
            if String.eqb (ConnectionInfo.Port (connectionSettings g)) ""
            then setConnectionSettings
                   (ConnectionInfo.setPort (Itoa (CLIConfig.Port settings))
                      (connectionSettings g)) g
            else g in
          (g, (false, None))
      end
  end.

(** [GetConnectionInfo] returns [&connectionSettings] or an error; the
    descriptor is read off the globals it leaves behind. *)
Definition GetConnectionInfo (w : World) (g : Globals)
  : Globals * result ConnectionInfo.t :=
  let '(g, (isImmediateError, err)) := finishConnectionSettings w g in
  match err with
  | Some e =>
      if isImmediateError || insufficientConnectionInfo g
      then (g, Err e)
      else (g, Ok (connectionSettings g))
  | None => (g, Ok (connectionSettings g))
  end.

(** *** The WSL probe *)

(** [os.FileMode] is a [uint32]; the type bits used here. *)
Definition ModeSymlink : Z := Z.shiftl 1 27.

(** What [os.Lstat] returns: a [FileInfo] (of which only [Mode()] is used)
    and a nil error, or a nil [FileInfo] and an error. *)
Inductive LstatResult : Type :=
| LstatInfo (Mode : Z)
| LstatError (e : error).

(** A Go function either returns or panics. *)
Inductive outcome (A : Type) : Type :=
| Returns (a : A)
| Panics (msg : string).
Arguments Returns {A} a.
Arguments Panics {A} msg.

Definition nilDereference : string :=
  "runtime error: invalid memory address or nil pointer dereference".

(** [isWSLDistro], given the answer of [os.Lstat("/bin/wslpath")]. Only
    the does-not-exist error is tested before [fi.Mode()] is called, and
    [fi] is nil whenever [err] is not. *)
Definition isWSLDistro (lstat : string -> LstatResult) : outcome bool :=
  let r := lstat "/bin/wslpath" in
  let err := match r with LstatError e => Some e | LstatInfo _ => None end in
  if os_IsNotExist err then Returns false
  else
    match r with
    | LstatInfo Mode =>
        Returns (Z.eqb (Z.land Mode ModeSymlink) ModeSymlink)
    | LstatError _ => Panics nilDereference
    end.

End Config.

(** ** utils: development-mode detection *)

Module Utils.
Import Go.

(** [strings.HasSuffix]. *)
Definition HasSuffix (s suffix : string) : bool :=
  Nat.leb (String.length suffix) (String.length s)
  && String.eqb
       (String.substring (String.length s - String.length suffix)
          (String.length suffix) s)
       suffix.

(** An [fs.DirEntry]: its name, and whether its type bits say directory. *)
Record DirEntry : Type := { Name : string; IsDir : bool }.

(** What [DevMode] asks of the operating system and of [path/filepath]. *)
Record System : Type := {
  LookupEnv : string -> option string;
  Executable : result string;
  EvalSymlinks : string -> result string;
  ReadDir : string -> result (list DirEntry);
  Dir : string -> string;
  Base : string -> string;
  Separator : string
}.

(** The package variable [devMode *bool]: nil until a verdict is cached. *)
Record Globals : Type := { devMode : option bool }.

(** The inner [for _, dirEntry := range dirEntries] loop, which returns at
    the first entry that is a directory named [.git]. *)
Fixpoint hasGitDir (dirEntries : list DirEntry) : bool :=
  match dirEntries with
  | [] => false
  | dirEntry :: rest =>
      if String.eqb (Name dirEntry) ".git" && IsDir dirEntry then true
      else hasGitDir rest
  end.

(** How the ancestor loop is left. *)
Inductive LoopExit : Type :=
| Break                     (* the root directory was reached *)
| Verdict (b : bool)        (* [devMode] is set to [b] and returned *)
| Fails (e : error).        (* [return false, err] *)

(** The [for { ... }] loop over the ancestors of [parentPath]. The Go loop
    has no bound; [fuel] bounds the number of iterations and [None] means
    the bound was hit. *)
Fixpoint ancestorLoop (sys : System) (fuel : nat) (parentPath : string)
  : option LoopExit :=
  match fuel with
  | O => None
  | S fuel =>
      let parentPath := Dir sys parentPath in
      if HasSuffix parentPath (Separator sys) then Some Break
      else if String.eqb (Base sys parentPath) "dist" then Some (Verdict false)
      else
        match ReadDir sys parentPath with
        | Err err =>
            Some (Fails (WrapError "failed to read directory %q: %w" [parentPath] err))
        | Ok dirEntries =>
            if hasGitDir dirEntries then Some (Verdict true)
            else ancestorLoop sys fuel parentPath
        end
  end.

(** [DevMode] returns [(bool, error)] and may set the cache. *)
Definition DevMode (sys : System) (fuel : nat) (g : Globals)
  : option (Globals * (bool * option error)) :=
  match devMode g with
  | Some b => Some (g, (b, None))
  | None =>
      let '(value, ok) :=
        match LookupEnv sys "NODE_ENV" with
        | Some value => (value, true)
        | None => ("", false)
        end in
      if ok && String.eqb value "development"
      then Some ({| devMode := Some true |}, (true, None))
      else
        match Executable sys with
        | Err err =>
            Some (g, (false,
                      Some (WrapError "failed to get path to rdctl symlink: %w" [] err)))
        | Ok rdctlSymlinkPath =>
            match EvalSymlinks sys rdctlSymlinkPath with
            | Err err =>
                Some (g, (false,
                          Some (WrapError "failed to resolve %q: %w"
                                  [rdctlSymlinkPath] err)))
            | Ok rdctlPath =>
                match ancestorLoop sys fuel rdctlPath with
                | None => None
                | Some Break => Some (g, (false, None))
                | Some (Verdict b) => Some ({| devMode := Some b |}, (b, None))
                | Some (Fails e) => Some (g, (false, Some e))
                end
            end
        end
  end.

End Utils.

(** ** paths.ts: the path set of the running platform *)

Module Paths.

(** A thrown JavaScript exception. *)
Inductive Exception : Type :=
| Error (message : string)
| TypeError (message : string).

(** A JavaScript completion: a value, or a throw. *)
Inductive completion (A : Type) : Type :=
| Normal (a : A)
| Throw (e : Exception).
Arguments Normal {A} a.
Arguments Throw {A} e.

(** The members of the [Paths] interface. *)
Inductive Field : Type :=
| appHome | altAppHome | config | logs | cache | resources | lima
| integration | oldIntegration | deploymentProfileSystem
| deploymentProfileUser | extensionRoot | wslDistro | wslDistroData.

Definition fieldName (f : Field) : string :=
  match f with
  | appHome => "appHome"
  | altAppHome => "altAppHome"
  | config => "config"
  | logs => "logs"
  | cache => "cache"
  | resources => "resources"
  | lima => "lima"
  | integration => "integration"
  | oldIntegration => "oldIntegration"
  | deploymentProfileSystem => "deploymentProfileSystem"
  | deploymentProfileUser => "deploymentProfileUser"
  | extensionRoot => "extensionRoot"
  | wslDistro => "wslDistro"
  | wslDistroData => "wslDistroData"
  end.

(** The two classes that implement [Paths]. *)
Inductive Class : Type := UnixPaths | WindowsPaths.

(** An instance: its class (prototype) and its own data properties, all
    of them strings here. *)
Record Instance : Type := {
  class : Class;
  own : gmap string string
}.

(** The class fields, each initialised to the empty string. *)
Definition classFields (c : Class) : list Field :=
  match c with
  | UnixPaths =>
      [appHome; altAppHome; config; logs; cache; resources; lima;
       oldIntegration; integration; deploymentProfileSystem;
       deploymentProfileUser; extensionRoot]
  | WindowsPaths =>
      [appHome; altAppHome; config; logs; cache; resources; extensionRoot;
       wslDistro; wslDistroData]
  end.

(** The [get] accessors on the prototype: every one of them throws, and
    none has a matching [set]. *)
Definition getter (c : Class) (key : string) : option Exception :=
  match c with
  | UnixPaths =>
      if String.eqb key "wslDistro"
      then Some (Error "wslDistro not available for Unix")
      else if String.eqb key "wslDistroData"
      then Some (Error "wslDistroData not available for Unix")
      else None
  | WindowsPaths =>
      if String.eqb key "lima"
      then Some (Error "lima not available for Windows")
      else if String.eqb key "oldIntegration"
      then Some (Error "Internal error: oldIntegration path not available for Windows")
      else if String.eqb key "integration"
      then Some (Error "Internal error: integration path not available for Windows")
      else if String.eqb key "deploymentProfileSystem"
      then Some (Error "Internal error: Windows profiles will be read from Registry")
      else if String.eqb key "deploymentProfileUser"
      then Some (Error "Internal error: Windows profiles will be read from Registry")
      else None
  end.

Definition className (c : Class) : string :=
  match c with
  | UnixPaths => "UnixPaths"
  | WindowsPaths => "WindowsPaths"
  end.

(** [this[key] = value] in strict code: an own data property is
    overwritten; otherwise an accessor without setter found on the
    prototype makes the assignment throw; the [__proto__] setter of
    [Object.prototype] ignores a string; any other key becomes a new own
    property. *)
Definition assignProperty (this : Instance) (key value : string)
  : completion Instance :=
  match own this !! key with
  | Some _ => Normal {| class := class this; own := <[key := value]> (own this) |}
  | None =>
      match getter (class this) key with
      | Some _ =>
          Throw (TypeError ("Cannot set property " +:+ key
                            +:+ " which has only a getter"))
      | None =>
          if String.eqb key "__proto__" then Normal this
          else Normal {| class := class this; own := <[key := value]> (own this) |}
      end
  end.

(** [Object.assign(this, pathsData)]: the own enumerable properties of
    the source, in order, are assigned one by one. *)
Fixpoint Object_assign (this : Instance) (pathsData : list (string * string))
  : completion Instance :=
  match pathsData with
  | [] => Normal this
  | (key, value) :: rest =>
      match assignProperty this key value with
      | Normal this => Object_assign this rest
      | Throw e => Throw e
      end
  end.

(** [new C(pathsData)]: field initialisers, then the constructor body. *)
Definition new (c : Class) (pathsData : list (string * string))
  : completion Instance :=
  let this :=
    {| class := c;
       own := list_to_map (map (fun f => (fieldName f, "")) (classFields c)) |} in
  Object_assign this pathsData.

(** Reading [paths.f]: an own property wins, then the accessor of the
    class; [None] is [undefined]. *)
Definition get (this : Instance) (f : Field) : completion (option string) :=
  match own this !! fieldName f with
  | Some v => Normal (Some v)
  | None =>
      match getter (class this) (fieldName f) with
      | Some e => Throw e
      | None => Normal None
      end
  end.

(** The result object of [spawnSync]; [status] is null when the child
    could not be started or was killed by a signal. *)
Record SpawnResult : Type := { status : option Z; stdout : string }.

(** [electron.app], when defined. *)
Record ElectronApp : Type := { isPackaged : bool; getAppPath : string }.

(** What the module reads from its process and from the libraries. *)
Record Process : Type := {
  platform : string;
  cwd : string;
  resourcesPath : string;
  electron_app : option ElectronApp;
  path_join : list string -> string;
  spawnSync : string -> list string -> SpawnResult;
  (** [JSON.parse]: [None] when it throws, otherwise the own enumerable
      properties of the parsed value. *)
  JSON_parse : string -> option (list (string * string))
}.

(** [String.prototype.startsWith]. *)
Definition startsWith (s p : string) : bool := String.prefix p s.

Definition getRdctlPath (proc : Process) : string :=
  let basePath :=
    match electron_app proc with
    | None => cwd proc
    | Some app => if isPackaged app then resourcesPath proc else getAppPath app
    end in
  let osSpecificName :=
    if startsWith (platform proc) "win" then "rdctl.exe" else "rdctl" in
  path_join proc [basePath; "resources"; platform proc; "bin"; osSpecificName].

(** The [try { ... } catch { ... }] block of [getPaths]. *)
Definition loadPathsData (proc : Process) : list (string * string) :=
  let fallback :=
    [("resources", path_join proc [cwd proc; "resources"]);
     ("logs", path_join proc [cwd proc; "script_logs"])] in
  let result := spawnSync proc (getRdctlPath proc) ["paths"] in
  match status result with
  | Some 0%Z =>
      match JSON_parse proc (stdout result) with
      | Some pathsData => pathsData
      | None => fallback
      end
  | _ => fallback
  end.

(** The text between two double-quote characters (code point 34), as the
    template literal of the error message writes it. *)
Definition quoted (s : string) : string :=
  String "034"%char (s +:+ String "034"%char EmptyString).

Definition getPaths (proc : Process) : completion Instance :=
  let pathsData := loadPathsData proc in
  if String.eqb (platform proc) "darwin" then new UnixPaths pathsData
  else if String.eqb (platform proc) "linux" then new UnixPaths pathsData
  else if String.eqb (platform proc) "win32" then new WindowsPaths pathsData
  else Throw (Error ("Platform " +:+ quoted (platform proc)
                     +:+ " is not supported.")).

End Paths.

(** ** Concrete environments

    Instances of the environment records, used to run the embedded
    functions on concrete inputs. *)

Module Fixtures.
Import Go.

(** *** A decoder for rd-engine.json

    [decode] reads one flat JSON object whose members are strings without
    escapes and integers, and fills a zero [CLIConfig] from the members
    named [User], [Password] and [Port]. It is the [Unmarshal] of the
    example worlds. *)

Inductive Token : Type :=
| TLBrace | TRBrace | TColon | TComma
| TString (s : string)
| TNumber (n : Z).

Inductive Mode : Type :=
| Plain
| InString (acc : string)
| InNumber (negative : bool) (digits : nat) (acc : Z).

Definition digitOf (c : ascii) : option Z :=
  let n := nat_of_ascii c in
  if Nat.leb 48 n && Nat.leb n 57 then Some (Z.of_nat (n - 48)) else None.

Definition isSpace (c : ascii) : bool :=
  let n := nat_of_ascii c in
  Nat.eqb n 32 || Nat.eqb n 9 || Nat.eqb n 10 || Nat.eqb n 13.

(** What a character outside strings and numbers does: a token to emit
    (if any) and the mode to continue in. *)
Definition plainStep (c : ascii) : option (option Token * Mode) :=
  if Ascii.eqb c "{" then Some (Some TLBrace, Plain)
  else if Ascii.eqb c "}" then Some (Some TRBrace, Plain)
  else if Ascii.eqb c ":" then Some (Some TColon, Plain)
  else if Ascii.eqb c "," then Some (Some TComma, Plain)
  else if Ascii.eqb c "034" then Some (None, InString EmptyString)
  else if Ascii.eqb c "-" then Some (None, InNumber true 0 0%Z)
  else if isSpace c then Some (None, Plain)
  else match digitOf c with
       | Some d => Some (None, InNumber false 1 d)
       | None => None
       end.

Definition emit (t : option Token) (ts : option (list Token)) : option (list Token) :=
  match t, ts with
  | Some t, Some ts => Some (t :: ts)
  | None, Some ts => Some ts
  | _, None => None
  end.

Definition number (negative : bool) (digits : nat) (acc : Z) : option Token :=
  match digits with
  | O => None
  | S _ => Some (TNumber (if negative then (- acc)%Z else acc))
  end.

Fixpoint lex (mode : Mode) (s : string) : option (list Token) :=
  match s with
  | EmptyString =>
      match mode with
      | Plain => Some []
      | InString _ => None
      | InNumber negative digits acc =>
          match number negative digits acc with
          | Some t => Some [t]
          | None => None
          end
      end
  | String c rest =>
      match mode with
      | InString acc =>
          if Ascii.eqb c "034" then emit (Some (TString acc)) (lex Plain rest)
          else if Ascii.eqb c "\" then None
          else lex (InString (acc +:+ String c EmptyString)) rest
      | InNumber negative digits acc =>
          match digitOf c with
          | Some d => lex (InNumber negative (S digits) (10 * acc + d)%Z) rest
          | None =>
              match number negative digits acc, plainStep c with
              | Some t, Some (t', mode') =>
                  emit (Some t) (emit t' (lex mode' rest))
              | _, _ => None
              end
          end
      | Plain =>
          match plainStep c with
          | Some (t, mode') => emit t (lex mode' rest)
          | None => None
          end
      end
  end.

(** The members after the opening brace, up to the closing brace that
    ends the text. *)
Fixpoint members (ts : list Token) : option (list (string * Token)) :=
  match ts with
  | TString k :: TColon :: v :: TRBrace :: [] => Some [(k, v)]
  | TString k :: TColon :: v :: TComma :: rest =>
      match members rest with
      | Some ms => Some ((k, v) :: ms)
      | None => None
      end
  | _ => None
  end.

Definition object (ts : list Token) : option (list (string * Token)) :=
  match ts with
  | [TLBrace; TRBrace] => Some []
  | TLBrace :: rest => members rest
  | _ => None
  end.

Fixpoint fill (ms : list (string * Token)) (c : Config.CLIConfig.t)
  : result Config.CLIConfig.t :=
  match ms with
  | [] => Ok c
  | (k, v) :: rest =>
      let '(Config.CLIConfig.Build u p n) := c in
      if String.eqb k "User" then
        match v with
        | TString s => fill rest (Config.CLIConfig.Build s p n)
        | _ => Err (JSONError "json: cannot unmarshal number into Go struct field CLIConfig.User of type string")
        end
      else if String.eqb k "Password" then
        match v with
        | TString s => fill rest (Config.CLIConfig.Build u s n)
        | _ => Err (JSONError "json: cannot unmarshal number into Go struct field CLIConfig.Password of type string")
        end
      else if String.eqb k "Port" then
        match v with
        | TNumber z => fill rest (Config.CLIConfig.Build u p z)
        | _ => Err (JSONError "json: cannot unmarshal string into Go struct field CLIConfig.Port of type int")
        end
      else
        match v with
        | TString _ | TNumber _ => fill rest c
        | _ => Err (JSONError "invalid character looking for beginning of value")
        end
  end.

Definition decode (content : string) : result Config.CLIConfig.t :=
  match lex Plain content with
  | None => Err (JSONError "invalid character in JSON text")
  | Some ts =>
      match object ts with
      | None => Err (JSONError "unexpected token in JSON text")
      | Some ms => fill ms (Config.CLIConfig.Build "" "" 0%Z)
      end
  end.

Definition q (s : string) : string := Paths.quoted s.

(** The file of the specification's example scenario. *)
Definition adminFile : string :=
  "{" +:+ q "User" +:+ ":" +:+ q "admin" +:+ "," +:+ q "Password" +:+ ":"
      +:+ q "secret" +:+ "," +:+ q "Port" +:+ ":6107}".

(** A file that sets no port. *)
Definition portlessFile : string :=
  "{" +:+ q "User" +:+ ":" +:+ q "admin" +:+ "," +:+ q "Password" +:+ ":"
      +:+ q "secret" +:+ "}".

End Fixtures.

Module Worlds.
Import Go Config.

Definition defaultPath : string :=
  "/home/user/.local/share/rancher-desktop/rd-engine.json".

(** A file system that holds one file. *)
Definition oneFile (path content : string) : FileSystem :=
  fun name => if String.eqb name path then Content content else Failure "open" ENOENT.

(** A file system without the config file. *)
Definition noFile : FileSystem := fun _ => Failure "open" ENOENT.

Definition world (files : FileSystem) : World :=
  {| files := files; Unmarshal := Fixtures.decode |}.

(** The globals after [DefineGlobalFlags] and flag parsing. *)
Definition flags (user password host port path : string) : Globals :=
  {| connectionSettings := ConnectionInfo.Build user password host port;
     configPath := path;
     DefaultConfigPath := defaultPath |}.

End Worlds.

(** ** Vocabulary of the statements *)

Module Vocabulary.
Import Go Config.

(** The path [finishConnectionSettings] reads: the flag, or the default
    when the flag is empty. *)
Definition effectivePath (g : Globals) : string :=
  if String.eqb (configPath g) "" then DefaultConfigPath g else configPath g.

(** The overrides supply all of user, password and port. *)
Definition overridesComplete (g : Globals) : Prop :=
  ConnectionInfo.User (connectionSettings g) <> ""
  /\ ConnectionInfo.Password (connectionSettings g) <> ""
  /\ ConnectionInfo.Port (connectionSettings g) <> "".

(** The host that results: the override, or the built-in default. *)
Definition hostOrDefault (g : Globals) : string :=
  if String.eqb (ConnectionInfo.Host (connectionSettings g)) "" then "127.0.0.1"
  else ConnectionInfo.Host (connectionSettings g).

(** The descriptor after a file that was read and decoded into
    [settings]: each of user, password and port comes from the file exactly
    when the override is empty. *)
Definition merged (g : Globals) (settings : CLIConfig.t) : ConnectionInfo.t :=
  let o := connectionSettings g in
  ConnectionInfo.Build
    (if String.eqb (ConnectionInfo.User o) "" then CLIConfig.User settings
     else ConnectionInfo.User o)
    (if String.eqb (ConnectionInfo.Password o) "" then CLIConfig.Password settings
     else ConnectionInfo.Password o)
    (hostOrDefault g)
    (if String.eqb (ConnectionInfo.Port o) "" then Itoa (CLIConfig.Port settings)
     else ConnectionInfo.Port o).

(** Every non-empty override of [g] is the value of the same field of [c]. *)
Definition overridesKept (g : Globals) (c : ConnectionInfo.t) : Prop :=
  let o := connectionSettings g in
  (ConnectionInfo.Host o <> "" -> ConnectionInfo.Host c = ConnectionInfo.Host o)
  /\ (ConnectionInfo.Port o <> "" -> ConnectionInfo.Port c = ConnectionInfo.Port o)
  /\ (ConnectionInfo.User o <> "" -> ConnectionInfo.User c = ConnectionInfo.User o)
  /\ (ConnectionInfo.Password o <> ""
      -> ConnectionInfo.Password c = ConnectionInfo.Password o).

(** [sub] occurs in [s]. *)
Definition Contains (s sub : string) : Prop :=
  exists before after, s = before +:+ sub +:+ after.

End Vocabulary.

(** ** Vocabulary of the development-mode statements *)

Module Walk.
Import Go Utils.

(** The ancestors of [p], nearest first: [ancestor sys p 0] is the
    directory of [p]. *)
Fixpoint ancestor (sys : System) (p : string) (k : nat) : string :=
  match k with
  | O => Dir sys p
  | S k => ancestor sys (Dir sys p) k
  end.

(** The loop's test for the root directory. *)
Definition atRoot (sys : System) (dir : string) : Prop :=
  HasSuffix dir (Separator sys) = true.

(** [NODE_ENV] is set, and set to [development]. *)
Definition marked (sys : System) : Prop :=
  LookupEnv sys "NODE_ENV" = Some "development".

(** [dir] can be listed and holds a directory named [.git]. *)
Definition containsGit (sys : System) (dir : string) : Prop :=
  exists dirEntries dirEntry,
    ReadDir sys dir = Ok dirEntries
    /\ In dirEntry dirEntries
    /\ Name dirEntry = ".git" /\ IsDir dirEntry = true.

(** [dir] decides nothing: it is not the root, it is not named [dist], and
    its listing holds no directory named [.git]. *)
Definition undecided (sys : System) (dir : string) : Prop :=
  ~ atRoot sys dir
  /\ Base sys dir <> "dist"
  /\ exists dirEntries,
       ReadDir sys dir = Ok dirEntries
       /\ forall dirEntry, In dirEntry dirEntries ->
            ~ (Name dirEntry = ".git" /\ IsDir dirEntry = true).

(** [DevMode] returns [(b, nil)]. *)
Definition returns (sys : System) (fuel : nat) (g : Globals) (b : bool) : Prop :=
  exists g', DevMode sys fuel g = Some (g', (b, None)).

(** The states of the cache that calls of [DevMode] in one environment
    lead to, from the empty cache the process starts with. *)
Inductive reachable (sys : System) : Globals -> Prop :=
| reach_start : reachable sys {| devMode := None |}
| reach_call (g g' : Globals) (fuel : nat) (r : bool * option error) :
    reachable sys g ->
    DevMode sys fuel g = Some (g', r) ->
    reachable sys g'.

(** A cached verdict is one that a call on the empty cache returned. *)
Definition cache_sound (sys : System) (g : Globals) : Prop :=
  forall b, devMode g = Some b ->
    exists fuel, DevMode sys fuel {| devMode := None |}
                 = Some ({| devMode := Some b |}, (b, None)).

(** *** Unix paths and a sample file tree *)

(** The components of a slash-separated path, [cur] being the component
    read so far. *)
Fixpoint components (cur : string) (s : string) : list string :=
  match s with
  | EmptyString => if String.eqb cur "" then [] else [cur]
  | String c rest =>
      if Ascii.eqb c "/"
      then (if String.eqb cur "" then components "" rest
            else cur :: components "" rest)
      else components (cur +:+ String c EmptyString) rest
  end.

(** [filepath.Dir] and [filepath.Base] on Unix, for absolute paths. *)
Definition unixDir (p : string) : string :=
  "/" +:+ String.concat "/" (removelast (components "" p)).

Definition unixBase (p : string) : string :=
  List.last (components "" p) "/".

(** A Unix system in which the executable is [exe], no symbolic link is
    involved, every directory can be listed, and exactly the directories
    [checkouts] hold a [.git] directory. *)
Definition unix (env : string -> option string) (exe : string)
    (checkouts : list string) : System :=
  {| LookupEnv := env;
     Executable := Ok exe;
     EvalSymlinks := fun p => Ok p;
     ReadDir := fun dir =>
       Ok (if existsb (String.eqb dir) checkouts
           then [ {| Name := "src"; IsDir := true |};
                  {| Name := ".git"; IsDir := true |};
                  {| Name := "package.json"; IsDir := false |} ]
           else [ {| Name := "bin"; IsDir := true |} ]);
     Dir := unixDir;
     Base := unixBase;
     Separator := "/" |}.

Definition noEnv : string -> option string := fun _ => None.

Definition devEnv : string -> option string :=
  fun name => if String.eqb name "NODE_ENV" then Some "development" else None.

End Walk.

(** ** Sample processes for the paths module *)

Module Machines.
Import Paths.

(** The string members of a flat JSON object, as [JSON.parse] followed by
    the enumeration of own properties gives them; [None] for any other
    text. *)
Fixpoint stringMembers (ms : list (string * Fixtures.Token))
  : option (list (string * string)) :=
  match ms with
  | [] => Some []
  | (k, Fixtures.TString v) :: rest =>
      match stringMembers rest with
      | Some l => Some ((k, v) :: l)
      | None => None
      end
  | _ => None
  end.

Definition parseObject (text : string) : option (list (string * string)) :=
  match Fixtures.lex Fixtures.Plain text with
  | Some ts =>
      match Fixtures.object ts with
      | Some ms => stringMembers ms
      | None => None
      end
  | None => None
  end.

(** A process started from [/src/rd] outside Electron, on [platform], for
    which running the helper gives [helper]. *)
Definition process (platform : string) (helper : SpawnResult) : Process :=
  {| platform := platform;
     cwd := "/src/rd";
     resourcesPath := "/opt/rd/resources";
     electron_app := None;
     path_join := String.concat "/";
     spawnSync := fun _ _ => helper;
     JSON_parse := parseObject |}.

(** The helper could not be started. *)
Definition noHelper : SpawnResult := {| status := None; stdout := "" |}.

(** The helper printed one path. *)
Definition helperPrints (key value : string) : SpawnResult :=
  {| status := Some 0%Z;
     stdout := "{" +:+ quoted key +:+ ":" +:+ quoted value +:+ "}" |}.

End Machines.

(** ** config.go: start-up, the default config path *)

Module Startup.
Import Go Config.

(** [strings.TrimRight] for a cutset of ASCII characters: bytes of the
    cutset are removed from the end, one by one, until another byte ends
    the string. *)
Definition inCutset (cutset : string) (c : ascii) : bool :=
  existsb (Ascii.eqb c) (list_ascii_of_string cutset).

Fixpoint TrimRight (s cutset : string) : string :=
  match s with
  | EmptyString => EmptyString
  | String c rest =>
      match TrimRight rest cutset with
      | EmptyString =>
          if inCutset cutset c then EmptyString else String c EmptyString
      | String c' rest' => String c (String c' rest')
      end
  end.

(** The cutset of both trimming calls: carriage return and line feed. *)
Definition crlf : string := String "013"%char (String "010"%char EmptyString).

(** What start-up asks of its host: the operating system name, [os.Lstat],
    running a command with its standard output collected ([Err] when
    [cmd.Run] fails), the application home of [paths.GetPaths], and
    [filepath.Join]. *)
Record Host : Type := {
  GOOS : string;
  Lstat : string -> LstatResult;
  Run : string -> list string -> result string;
  GetPaths_AppHome : result string;
  Join : list string -> string
}.

Definition subCommand : string := "chcp 65001 >nul & echo %APPDATA%".

Definition getAppDataPath (h : Host) : result string :=
  match Run h "cmd.exe" ["/c"; subCommand] with
  | Err err => Err err
  | Ok outBuf => Ok (TrimRight outBuf crlf)
  end.

Definition wslifyConfigDir (h : Host) : result string :=
  match getAppDataPath h with
  | Err err => Err err
  | Ok path =>
      match Run h "/bin/wslpath" [path] with
      | Err err => Err err
      | Ok outBuf => Ok (TrimRight outBuf crlf)
      end
  end.

(** How [DefineGlobalFlags] ends: it returns with the globals set, it
    stops the process through [log.Fatalf], or it panics. *)
Inductive Start : Type :=
| Started (g : Globals)
| Fatal (format : string) (err : error)
| Panicked (msg : string).

(** [DefineGlobalFlags]. Registering a string flag stores its default, the
    empty string, in the variable the flag is bound to. *)
Definition DefineGlobalFlags (h : Host) : Start :=
  let finish (configDir : string) : Start :=
    Started {| connectionSettings := ConnectionInfo.Build "" "" "" "";
               configPath := "";
               DefaultConfigPath := Join h [configDir; "rd-engine.json"] |} in
  let wsl :=
    if String.eqb (GOOS h) "linux" then isWSLDistro (Lstat h) else Returns false in
  match wsl with
  | Panics msg => Panicked msg
  | Returns true =>
      match wslifyConfigDir h with
      | Err err => Fatal "Can't get WSL config-dir: %v" err
      | Ok configDir => finish (Join h [configDir; "rancher-desktop"])
      end
  | Returns false =>
      match GetPaths_AppHome h with
      | Err err => Fatal "failed to get paths: %s" err
      | Ok appHome => finish appHome
      end
  end.

(** A Windows host seen from a WSL distribution: [/bin/wslpath] is a
    symbolic link, [cmd.exe] prints the roaming directory with a line end. *)
Definition wslHost : Host :=
  {| GOOS := "linux";
     Lstat := fun _ => LstatInfo (Z.lor ModeSymlink 511);
     Run := fun name args =>
       if String.eqb name "cmd.exe"
       then Ok ("C:/Users/me/AppData/Roaming" +:+ crlf)
       else Ok ("/mnt/c/Users/me/AppData/Roaming"
                  +:+ String "010"%char EmptyString);
     GetPaths_AppHome := Ok "/home/me/.local/share/rancher-desktop";
     Join := String.concat "/" |}.

(** A macOS host on which the probe of [/bin/wslpath] would fail. *)
Definition macHost : Host :=
  {| GOOS := "darwin";
     Lstat := fun name => LstatError (PathError "lstat" name EACCES);
     Run := fun _ _ => Err (PathError "exec" "cmd.exe" ENOENT);
     GetPaths_AppHome := Ok "/Users/me/Library/Application Support/rancher-desktop";
     Join := String.concat "/" |}.

End Startup.

(** ** utils: parent directories *)

Module Parents.
Import Utils.

(** [getParentDir]: the loop [for ; steps > 0; steps--] runs [steps] times,
    and not at all for a count that is zero or negative. *)
Definition getParentDir (sys : System) (Clean : string -> string)
    (fullPath : string) (steps : Z) : string :=
  Nat.iter (Z.to_nat steps) (Dir sys) (Clean fullPath).

End Parents.

(** ** Vocabulary of the further statements *)

Module Terms.
Import Paths.

(** Every character of [s] is in [cutset]. *)
Definition onlyFrom (cutset s : string) : Prop :=
  Forall (fun c => Startup.inCutset cutset c = true) (list_ascii_of_string s).

(** The last character of a string. *)
Fixpoint lastChar (s : string) : option ascii :=
  match s with
  | EmptyString => None
  | String c EmptyString => Some c
  | String _ rest => lastChar rest
  end.

(** The value the last entry for [key] gives, [init] when there is none. *)
Fixpoint lastBinding (key : string) (pathsData : list (string * string))
    (init : option string) : option string :=
  match pathsData with
  | [] => init
  | (k, v) :: rest =>
      lastBinding key rest (if String.eqb k key then Some v else init)
  end.

(** The first entry whose key is the name of a getter of the class. *)
Definition firstGetterKey (c : Class) (pathsData : list (string * string))
  : option (string * string) :=
  find (fun kv => match getter c (fst kv) with Some _ => true | None => false end)
       pathsData.

(** The [TypeError] that assigning to [key] raises when the class has only
    a getter for it. *)
Definition onlyGetter (key : string) : Exception :=
  TypeError ("Cannot set property " +:+ key +:+ " which has only a getter").

(** No own property sits under the name of a getter of the class. *)
Definition gettersAbsent (this : Instance) : Prop :=
  forall key, is_Some (getter (class this) key) -> own this !! key = None.

(** The path data used when the helper gives none. *)
Definition fallbackData (proc : Process) : list (string * string) :=
  [("resources", path_join proc [cwd proc; "resources"]);
   ("logs", path_join proc [cwd proc; "script_logs"])].

(** The helper ran, exited with status 0 and printed text that parses. *)
Definition helperAnswered (proc : Process) (pathsData : list (string * string)) : Prop :=
  let result := spawnSync proc (getRdctlPath proc) ["paths"] in
  status result = Some 0%Z /\ JSON_parse proc (stdout result) = Some pathsData.

Definition supported (platform : string) : Prop :=
  platform = "darwin" \/ platform = "linux" \/ platform = "win32".

End Terms.

(** ** Properties of connection resolution *)

Module ConfigFacts.
Import Go Config Vocabulary.

Local Ltac eqb_cases :=
  repeat match goal with
    | |- context [String.eqb ?a ?b] => destruct (String.eqb_spec a b)
    | H : context [String.eqb ?a ?b] |- _ => destruct (String.eqb_spec a b)
    end.

Lemma insufficient_iff (g : Globals) :
  insufficientConnectionInfo g = false <-> overridesComplete g.
Proof.
  unfold insufficientConnectionInfo, overridesComplete.
  destruct (connectionSettings g) as [u p h n]; simpl.
  eqb_cases; simpl; intuition congruence.
Qed.

(** What [finishConnectionSettings] does when the file cannot be read. *)
Lemma finish_unreadable (w : World) (g : Globals) (op : string) (errno : Errno) :
  files w (effectivePath g) = Failure op errno ->
  finishConnectionSettings w g =
    (setConnectionSettings
       (ConnectionInfo.setHost (hostOrDefault g) (connectionSettings g))
       (setConfigPath (effectivePath g) g),
     (negb (String.eqb (effectivePath g) (DefaultConfigPath g)),
      Some (PathError op (effectivePath g) errno))).
Proof.
  unfold finishConnectionSettings, effectivePath, hostOrDefault, ReadFile.
  destruct g as [[u p h n] path dflt]; simpl.
  destruct (String.eqb_spec path ""); simpl;
    destruct (String.eqb_spec h ""); simpl; intros ->; subst; reflexivity.
Qed.

(** What it does when the file is read but does not decode. *)
Lemma finish_undecodable (w : World) (g : Globals) (content : string) (err : error) :
  files w (effectivePath g) = Content content ->
  Unmarshal w content = Err err ->
  finishConnectionSettings w g =
    (setConnectionSettings
       (ConnectionInfo.setHost (hostOrDefault g) (connectionSettings g))
       (setConfigPath (effectivePath g) g),
     (negb (String.eqb (effectivePath g) (DefaultConfigPath g)),
      Some (WrapError "error in config file %q: %w" [effectivePath g] err))).
Proof.
  unfold finishConnectionSettings, effectivePath, hostOrDefault, ReadFile.
  destruct g as [[u p h n] path dflt]; simpl.
  destruct (String.eqb_spec path ""); simpl;
    destruct (String.eqb_spec h ""); simpl; intros -> ->; subst; reflexivity.
Qed.

(** What it does when the file is read and decoded. *)
Lemma finish_decoded (w : World) (g : Globals) (content : string)
    (settings : CLIConfig.t) :
  files w (effectivePath g) = Content content ->
  Unmarshal w content = Ok settings ->
  finishConnectionSettings w g =
    (setConnectionSettings (merged g settings) (setConfigPath (effectivePath g) g),
     (false, None)).
Proof.
  unfold finishConnectionSettings, effectivePath, merged, hostOrDefault, ReadFile.
  destruct g as [[u p h n] path dflt]; simpl.
  destruct (String.eqb_spec path ""); simpl;
    destruct (String.eqb_spec h ""); simpl; intros -> ->; simpl;
    destruct (String.eqb_spec u ""); simpl;
    destruct (String.eqb_spec p ""); simpl;
    destruct (String.eqb_spec n ""); simpl; subst; reflexivity.
Qed.

(** The three ways a read can go cover every world. *)
Lemma read_cases (w : World) (g : Globals) :
  (exists op errno, files w (effectivePath g) = Failure op errno)
  \/ (exists content err,
        files w (effectivePath g) = Content content /\ Unmarshal w content = Err err)
  \/ (exists content settings,
        files w (effectivePath g) = Content content
        /\ Unmarshal w content = Ok settings).
Proof.
  destruct (files w (effectivePath g)) as [content | op errno] eqn:E.
  - destruct (Unmarshal w content) as [settings | err] eqn:U.
    + right; right; eauto.
    + right; left; eauto.
  - left; eauto.
Qed.

Lemma setHost_kept (g : Globals) :
  overridesKept g (ConnectionInfo.setHost (hostOrDefault g) (connectionSettings g)).
Proof.
  unfold overridesKept, hostOrDefault.
  destruct g as [[u p h n] path dflt]; simpl.
  destruct (String.eqb_spec h ""); intuition congruence.
Qed.

Lemma merged_kept (g : Globals) (settings : CLIConfig.t) :
  overridesKept g (merged g settings).
Proof.
  unfold overridesKept, merged, hostOrDefault.
  destruct g as [[u p h n] path dflt]; simpl.
  destruct (String.eqb_spec h ""), (String.eqb_spec u ""),
    (String.eqb_spec p ""), (String.eqb_spec n ""); intuition congruence.
Qed.

Lemma insufficient_after_setHost (g : Globals) (h path : string) :
  insufficientConnectionInfo
    (setConnectionSettings (ConnectionInfo.setHost h (connectionSettings g))
       (setConfigPath path g))
  = insufficientConnectionInfo g.
Proof. reflexivity. Qed.

(** *** Default config file absent *)

(** C1, as the code has it: when the path read is the default one, the
    file does not exist there and the overrides leave user, password or
    port empty, [GetConnectionInfo] fails with the error of [os.ReadFile]
    itself, the [PathError] of the default path with errno [ENOENT]. That
    error matches [os.ErrNotExist] and does not match
    [ErrMainProcessNotRunning]. *)
Theorem missing_default_config_returns_read_error
    (w : World) (g : Globals) (op : string) :
  effectivePath g = DefaultConfigPath g ->
  files w (DefaultConfigPath g) = Failure op ENOENT ->
  ~ overridesComplete g ->
  let e := PathError op (DefaultConfigPath g) ENOENT in
  snd (GetConnectionInfo w g) = Err e
  /\ Is_ErrNotExist e = true
  /\ Is_ErrMainProcessNotRunning e = false.
Proof.
  intros Hpath Hfile Hover e.
  split; [| split; reflexivity].
  unfold GetConnectionInfo.
  rewrite (finish_unreadable w g op ENOENT) by (rewrite Hpath; exact Hfile).
  rewrite Hpath, String.eqb_refl, insufficient_after_setHost. simpl.
  destruct (insufficientConnectionInfo g) eqn:E; [reflexivity |].
  apply insufficient_iff in E. contradiction.
Qed.

Lemma missing_default_config_returns_read_error_witness :
  let g := Worlds.flags "" "" "" "" "" in
  let w := Worlds.world Worlds.noFile in
  effectivePath g = DefaultConfigPath g
  /\ files w (DefaultConfigPath g) = Failure "open" ENOENT
  /\ ~ overridesComplete g
  /\ snd (GetConnectionInfo w g) = Err (PathError "open" Worlds.defaultPath ENOENT).
Proof.
  assert (H : ~ overridesComplete (Worlds.flags "" "" "" "" "")).
  { intros [Hu _]. apply Hu. reflexivity. }
  split; [reflexivity |]. split; [reflexivity |]. split; [exact H |].
  exact (proj1 (missing_default_config_returns_read_error
                  (Worlds.world Worlds.noFile) (Worlds.flags "" "" "" "" "") "open"
                  eq_refl eq_refl H)).
Defined.

(** C1 as stated fails: with no flags and no config file the error is
    the file-not-found [PathError], not [ErrMainProcessNotRunning]. *)
Lemma missing_default_config_not_service_error :
  snd (GetConnectionInfo (Worlds.world Worlds.noFile) (Worlds.flags "" "" "" "" ""))
    = Err (PathError "open" Worlds.defaultPath ENOENT)
  /\ snd (GetConnectionInfo (Worlds.world Worlds.noFile) (Worlds.flags "" "" "" "" ""))
    <> Err ErrMainProcessNotRunning.
Proof. split; [reflexivity | discriminate]. Qed.

(** *** Config file that does not decode *)

(** C2, as the code has it: when the file is read and [json.Unmarshal]
    rejects it, [GetConnectionInfo] fails with the decoding error wrapped
    together with the path if the path is not the default one or the
    overrides leave user, password or port empty; at the default path with
    all three overridden it returns the overrides (and the host) and drops
    the error. *)
Theorem undecodable_config
    (w : World) (g : Globals) (content : string) (err : error) :
  files w (effectivePath g) = Content content ->
  Unmarshal w content = Err err ->
  (effectivePath g <> DefaultConfigPath g \/ ~ overridesComplete g ->
   snd (GetConnectionInfo w g)
     = Err (WrapError "error in config file %q: %w" [effectivePath g] err))
  /\ (effectivePath g = DefaultConfigPath g -> overridesComplete g ->
      snd (GetConnectionInfo w g)
        = Ok (ConnectionInfo.setHost (hostOrDefault g) (connectionSettings g))).
Proof.
  intros Hfile Hjson.
  unfold GetConnectionInfo.
  rewrite (finish_undecodable w g content err Hfile Hjson).
  rewrite insufficient_after_setHost.
  split.
  - intros [Hne | Hinc].
    + destruct (String.eqb_spec (effectivePath g) (DefaultConfigPath g));
        [contradiction | reflexivity].
    + destruct (insufficientConnectionInfo g) eqn:E.
      * rewrite orb_true_r. reflexivity.
      * apply insufficient_iff in E. contradiction.
  - intros Heq Hcomplete.
    rewrite Heq, String.eqb_refl.
    apply insufficient_iff in Hcomplete. rewrite Hcomplete. reflexivity.
Qed.

Lemma undecodable_config_witness :
  let g := Worlds.flags "admin" "" "" "" "/tmp/rd.json" in
  let w := Worlds.world (Worlds.oneFile "/tmp/rd.json" "{") in
  files w (effectivePath g) = Content "{"
  /\ Unmarshal w "{" = Err (JSONError "unexpected token in JSON text")
  /\ snd (GetConnectionInfo w g)
     = Err (WrapError "error in config file %q: %w" ["/tmp/rd.json"]
              (JSONError "unexpected token in JSON text")).
Proof.
  split; [reflexivity |]. split; [reflexivity |].
  apply (proj1 (undecodable_config
                  (Worlds.world (Worlds.oneFile "/tmp/rd.json" "{"))
                  (Worlds.flags "admin" "" "" "" "/tmp/rd.json") "{"
                  (JSONError "unexpected token in JSON text") eq_refl eq_refl)).
  left. discriminate.
Defined.

(** C2 as stated fails: an undecodable file at the default path does not
    fail resolution when user, password and port are all overridden. *)
Lemma undecodable_default_config_tolerated :
  let w := Worlds.world (Worlds.oneFile Worlds.defaultPath "not json") in
  Unmarshal w "not json" = Err (JSONError "invalid character in JSON text")
  /\ snd (GetConnectionInfo w (Worlds.flags "admin" "secret" "" "6107" ""))
     = Ok (ConnectionInfo.Build "admin" "secret" "127.0.0.1" "6107").
Proof. split; reflexivity. Qed.

(** *** Merging a decoded file *)

(** Every resolution of a file that is read and decoded succeeds with the
    merged descriptor. *)
Lemma decoded_config_resolves
    (w : World) (g : Globals) (content : string) (settings : CLIConfig.t) :
  files w (effectivePath g) = Content content ->
  Unmarshal w content = Ok settings ->
  GetConnectionInfo w g =
    (setConnectionSettings (merged g settings) (setConfigPath (effectivePath g) g),
     Ok (merged g settings)).
Proof.
  intros Hfile Hjson. unfold GetConnectionInfo.
  rewrite (finish_decoded w g content settings Hfile Hjson). reflexivity.
Qed.

(** User and password of a decoded file are merged as C3 says: an empty
    override takes the file's value, and an empty value in the file leaves
    the field empty. *)
Lemma merged_user_password (g : Globals) (settings : CLIConfig.t) :
  (ConnectionInfo.User (connectionSettings g) = "" ->
   ConnectionInfo.User (merged g settings) = CLIConfig.User settings)
  /\ (ConnectionInfo.Password (connectionSettings g) = "" ->
      ConnectionInfo.Password (merged g settings) = CLIConfig.Password settings).
Proof.
  unfold merged. split; intros ->; reflexivity.
Qed.

(** C3 fails for the port: a file that sets user and password and no port
    decodes to port 0, and resolution without overrides takes the text "0"
    as the port instead of leaving it empty. *)
Theorem zero_port_is_taken_from_file :
  let w := Worlds.world (Worlds.oneFile Worlds.defaultPath Fixtures.portlessFile) in
  Unmarshal w Fixtures.portlessFile = Ok (CLIConfig.Build "admin" "secret" 0)
  /\ snd (GetConnectionInfo w (Worlds.flags "" "" "" "" ""))
     = Ok (ConnectionInfo.Build "admin" "secret" "127.0.0.1" "0").
Proof. split; reflexivity. Qed.

(** *** Overrides win *)

(** C4: in every world, whatever the config file holds, a descriptor that
    [GetConnectionInfo] returns carries every non-empty override of host,
    port, user and password unchanged, each field on its own and so in any
    combination; and whenever the file is read and decoded a descriptor is
    returned. *)
Theorem overrides_win (w : World) (g : Globals) :
  (forall g' c, GetConnectionInfo w g = (g', Ok c) -> overridesKept g c)
  /\ (forall content settings,
        files w (effectivePath g) = Content content ->
        Unmarshal w content = Ok settings ->
        exists g' c, GetConnectionInfo w g = (g', Ok c)).
Proof.
  split.
  - intros g' c H.
    destruct (read_cases w g) as [(op & errno & Hf) | [(ct & err & Hf & Hj) | (ct & st & Hf & Hj)]].
    + unfold GetConnectionInfo in H.
      rewrite (finish_unreadable w g op errno Hf) in H.
      destruct (_ || _) in H; inversion H; subst. apply setHost_kept.
    + unfold GetConnectionInfo in H.
      rewrite (finish_undecodable w g ct err Hf Hj) in H.
      destruct (_ || _) in H; inversion H; subst. apply setHost_kept.
    + rewrite (decoded_config_resolves w g ct st Hf Hj) in H.
      inversion H; subst. apply merged_kept.
  - intros content settings Hf Hj.
    rewrite (decoded_config_resolves w g content settings Hf Hj). eauto.
Qed.

Lemma overrides_win_witness :
  let w := Worlds.world (Worlds.oneFile Worlds.defaultPath Fixtures.adminFile) in
  let g := Worlds.flags "root" "" "10.0.0.5" "8080" "" in
  let c := ConnectionInfo.Build "root" "secret" "10.0.0.5" "8080" in
  snd (GetConnectionInfo w g) = Ok c /\ overridesKept g c.
Proof.
  split; [reflexivity |].
  exact (proj1 (overrides_win
                  (Worlds.world (Worlds.oneFile Worlds.defaultPath Fixtures.adminFile))
                  (Worlds.flags "root" "" "10.0.0.5" "8080" ""))
           _ _ eq_refl).
Defined.

(** *** File only *)

(** C5: when no override is given and the file that is read decodes to a
    non-empty user, a non-empty password and a non-zero port, resolution
    succeeds with exactly that user and password, the decimal text of the
    port and host 127.0.0.1. *)
Theorem file_only_resolution
    (w : World) (g : Globals) (content user password : string) (port : Z) :
  connectionSettings g = ConnectionInfo.Build "" "" "" "" ->
  files w (effectivePath g) = Content content ->
  Unmarshal w content = Ok (CLIConfig.Build user password port) ->
  user <> "" -> password <> "" -> port <> 0%Z ->
  snd (GetConnectionInfo w g)
    = Ok (ConnectionInfo.Build user password "127.0.0.1" (Itoa port)).
Proof.
  intros Hnone Hfile Hjson _ _ _.
  rewrite (decoded_config_resolves w g content _ Hfile Hjson). simpl.
  unfold merged, hostOrDefault. rewrite Hnone. reflexivity.
Qed.

Lemma file_only_resolution_witness :
  let w := Worlds.world (Worlds.oneFile Worlds.defaultPath Fixtures.adminFile) in
  Unmarshal w Fixtures.adminFile = Ok (CLIConfig.Build "admin" "secret" 6107)
  /\ snd (GetConnectionInfo w (Worlds.flags "" "" "" "" ""))
     = Ok (ConnectionInfo.Build "admin" "secret" "127.0.0.1" "6107").
Proof.
  split; [reflexivity |].
  apply (file_only_resolution
           (Worlds.world (Worlds.oneFile Worlds.defaultPath Fixtures.adminFile))
           (Worlds.flags "" "" "" "" "") Fixtures.adminFile "admin" "secret" 6107);
    (reflexivity || discriminate).
Defined.

(** *** Unreadable user-specified config file *)

Lemma append_assoc (a b c : string) : (a +:+ b) +:+ c = a +:+ (b +:+ c).
Proof.
  induction a as [| x a IH]; [reflexivity |].
  change (String x ((a +:+ b) +:+ c) = String x (a +:+ (b +:+ c))).
  rewrite IH. reflexivity.
Qed.

Lemma PathError_Error_names_path (op path : string) (errno : Errno) :
  Contains (PathError_Error op path errno) path.
Proof.
  exists (op +:+ " "), (": " +:+ Errno_Error errno).
  unfold PathError_Error. rewrite append_assoc. reflexivity.
Qed.

(** C6: when a config path is given that is not the default one and the
    file cannot be read, [finishConnectionSettings] flags the error as
    immediate and [GetConnectionInfo] fails with the [PathError] of that
    path, whose message contains the path, whatever the overrides are;
    whereas with the same overrides complete, an unreadable file at the
    default path is tolerated and resolution succeeds. *)
Theorem unreadable_user_config_fails
    (w : World) (g : Globals) (op : string) (errno : Errno) :
  configPath g <> "" ->
  configPath g <> DefaultConfigPath g ->
  files w (configPath g) = Failure op errno ->
  fst (snd (finishConnectionSettings w g)) = true
  /\ snd (GetConnectionInfo w g) = Err (PathError op (configPath g) errno)
  /\ Contains (PathError_Error op (configPath g) errno) (configPath g)
  /\ (overridesComplete g ->
      forall w0, files w0 (DefaultConfigPath g) = Failure op errno ->
      snd (GetConnectionInfo w0 (setConfigPath "" g))
        = Ok (ConnectionInfo.setHost (hostOrDefault g) (connectionSettings g))).
Proof.
  intros Hset Hne Hfile.
  assert (Hp : effectivePath g = configPath g).
  { unfold effectivePath. destruct (String.eqb_spec (configPath g) ""); congruence. }
  assert (Hf : finishConnectionSettings w g = _)
    by (apply (finish_unreadable w g op errno); rewrite Hp; exact Hfile).
  rewrite Hp in Hf.
  assert (Hi : String.eqb (configPath g) (DefaultConfigPath g) = false)
    by (apply String.eqb_neq; exact Hne).
  repeat split.
  - rewrite Hf. simpl. rewrite Hi. reflexivity.
  - unfold GetConnectionInfo. rewrite Hf, Hi. reflexivity.
  - apply PathError_Error_names_path.
  - intros Hcomplete w0 Hfile0.
    unfold GetConnectionInfo.
    rewrite (finish_unreadable w0 (setConfigPath "" g) op errno) by exact Hfile0.
    rewrite insufficient_after_setHost.
    change (effectivePath (setConfigPath "" g)) with (DefaultConfigPath g).
    change (DefaultConfigPath (setConfigPath "" g)) with (DefaultConfigPath g).
    rewrite String.eqb_refl.
    apply insufficient_iff in Hcomplete.
    change (insufficientConnectionInfo (setConfigPath "" g))
      with (insufficientConnectionInfo g).
    rewrite Hcomplete. reflexivity.
Qed.

Lemma unreadable_user_config_fails_witness :
  let g := Worlds.flags "admin" "secret" "" "6107" "/tmp/missing.json" in
  let w := Worlds.world Worlds.noFile in
  configPath g <> "" /\ configPath g <> DefaultConfigPath g
  /\ files w (configPath g) = Failure "open" ENOENT
  /\ snd (GetConnectionInfo w g) = Err (PathError "open" "/tmp/missing.json" ENOENT)
  /\ snd (GetConnectionInfo w (Worlds.flags "admin" "secret" "" "6107" ""))
     = Ok (ConnectionInfo.Build "admin" "secret" "127.0.0.1" "6107").
Proof.
  assert (Hc : overridesComplete
                 (Worlds.flags "admin" "secret" "" "6107" "/tmp/missing.json")).
  { split; [discriminate |]. split; discriminate. }
  split; [discriminate |]. split; [discriminate |]. split; [reflexivity |].
  split.
  - refine (proj1 (proj2 (unreadable_user_config_fails
                    (Worlds.world Worlds.noFile)
                    (Worlds.flags "admin" "secret" "" "6107" "/tmp/missing.json")
                    "open" ENOENT _ _ eq_refl))); discriminate.
  - refine (proj2 (proj2 (proj2 (unreadable_user_config_fails
                    (Worlds.world Worlds.noFile)
                    (Worlds.flags "admin" "secret" "" "6107" "/tmp/missing.json")
                    "open" ENOENT _ _ eq_refl))) Hc (Worlds.world Worlds.noFile) eq_refl);
      discriminate.
Defined.

(** *** The WSL probe *)

Lemma symlink_bit (Mode : Z) :
  Z.eqb (Z.land Mode ModeSymlink) ModeSymlink = Z.testbit Mode 27.
Proof.
  unfold ModeSymlink. rewrite Z.shiftl_1_l.
  destruct (Z.testbit Mode 27) eqn:T.
  - apply Z.eqb_eq. apply Z.bits_inj'. intros n Hn.
    rewrite Z.land_spec, Z.pow2_bits_eqb by lia.
    destruct (Z.eqb_spec 27 n) as [<- | _]; [rewrite T; reflexivity |].
    apply andb_false_r.
  - apply Z.eqb_neq. intros H.
    assert (Hb : Z.testbit (Z.land Mode (2 ^ 27)) 27 = Z.testbit (2 ^ 27) 27)
      by (rewrite H; reflexivity).
    rewrite Z.land_spec, T, Z.pow2_bits_true in Hb by lia. discriminate.
Qed.

(** When [os.Lstat] succeeds or reports that the path does not exist,
    [isWSLDistro] returns, and it returns true exactly for an existing
    symbolic link. *)
Lemma isWSLDistro_returns (lstat : string -> LstatResult) :
  (forall Mode, lstat "/bin/wslpath" = LstatInfo Mode ->
     isWSLDistro lstat = Returns (Z.testbit Mode 27))
  /\ (forall op path, lstat "/bin/wslpath" = LstatError (PathError op path ENOENT) ->
        isWSLDistro lstat = Returns false).
Proof.
  unfold isWSLDistro. split.
  - intros Mode ->. cbv beta iota zeta. unfold os_IsNotExist.
    rewrite symlink_bit. reflexivity.
  - intros op path ->. reflexivity.
Qed.

(** C10 fails: when [os.Lstat] reports an error other than does-not-exist
    (here permission denied), [isWSLDistro] calls [Mode] on the nil
    [FileInfo] and panics instead of returning a boolean. *)
Theorem isWSLDistro_panics_on_other_error :
  isWSLDistro (fun _ => LstatError (PathError "lstat" "/bin/wslpath" EACCES))
    = Panics nilDereference.
Proof. reflexivity. Qed.

End ConfigFacts.

(** ** Properties of development-mode detection *)

Module DevModeFacts.
Import Go Utils Walk.

Lemma hasGitDir_true (dirEntries : list DirEntry) :
  hasGitDir dirEntries = true <->
  exists dirEntry,
    In dirEntry dirEntries /\ Name dirEntry = ".git" /\ IsDir dirEntry = true.
Proof.
  induction dirEntries as [| e rest IH]; simpl.
  - split; [discriminate | intros (? & [] & _)].
  - destruct (String.eqb_spec (Name e) ".git") as [Hn | Hn]; simpl.
    + destruct (IsDir e) eqn:Hd.
      * split; [intros _; exists e; auto | reflexivity].
      * rewrite IH. split.
        -- intros (x & Hin & Hx). exists x. auto.
        -- intros (x & [<- | Hin] & Hname & Hdir); [congruence | eauto].
    + rewrite IH. split.
      * intros (x & Hin & Hx). exists x. auto.
      * intros (x & [<- | Hin] & Hname & Hdir); [congruence | eauto].
Qed.

Lemma hasGitDir_false (dirEntries : list DirEntry) :
  (forall dirEntry, In dirEntry dirEntries ->
     ~ (Name dirEntry = ".git" /\ IsDir dirEntry = true)) ->
  hasGitDir dirEntries = false.
Proof.
  intros H. destruct (hasGitDir dirEntries) eqn:E; [| reflexivity].
  apply hasGitDir_true in E. destruct E as (x & Hin & Hx).
  exfalso. exact (H x Hin Hx).
Qed.

(** One iteration over an ancestor that decides nothing moves on to the
    next ancestor. *)
Lemma loop_undecided (sys : System) (fuel : nat) (p : string) :
  undecided sys (Dir sys p) ->
  ancestorLoop sys (S fuel) p = ancestorLoop sys fuel (Dir sys p).
Proof.
  intros (Hroot & Hbase & es & Hread & Hgit). simpl.
  unfold atRoot in Hroot.
  destruct (HasSuffix (Dir sys p) (Separator sys)); [congruence |].
  destruct (String.eqb_spec (Base sys (Dir sys p)) "dist"); [contradiction |].
  rewrite Hread, (hasGitDir_false es Hgit). reflexivity.
Qed.

(** After [k] undecided ancestors the loop stands at the [k]-th one. *)
Lemma loop_skip (sys : System) (k fuel : nat) :
  forall p,
    (forall i, i < k -> undecided sys (ancestor sys p i)) ->
    forall x,
      ancestorLoop sys (S fuel) (Nat.iter k (Dir sys) p) = x ->
      ancestorLoop sys (k + S fuel) p = x.
Proof.
  induction k as [| k IH]; intros p Hun x Hx; [exact Hx |].
  change (S k + S fuel) with (S (k + S fuel)).
  rewrite loop_undecided by (apply (Hun 0); lia).
  apply IH.
  - intros i Hi. apply (Hun (S i)). lia.
  - rewrite <- Hx. f_equal. clear. induction k as [| k IHk]; [reflexivity |].
    simpl. rewrite IHk. reflexivity.
Qed.

Lemma ancestor_iter (sys : System) (k : nat) :
  forall p, ancestor sys p k = Dir sys (Nat.iter k (Dir sys) p).
Proof.
  induction k as [| k IH]; intros p; [reflexivity |].
  simpl. rewrite IH. f_equal. clear. induction k as [| k IHk]; [reflexivity |].
  simpl. rewrite IHk. reflexivity.
Qed.

(** More fuel does not change what the loop has found. *)
Lemma loop_fuel_mono (sys : System) (fuel : nat) :
  forall p x, ancestorLoop sys fuel p = Some x ->
  forall fuel', fuel <= fuel' -> ancestorLoop sys fuel' p = Some x.
Proof.
  induction fuel as [| fuel IH]; intros p x H fuel' Hle; [discriminate |].
  destruct fuel' as [| fuel']; [lia |].
  simpl in *.
  destruct (HasSuffix (Dir sys p) (Separator sys)); [exact H |].
  destruct (String.eqb (Base sys (Dir sys p)) "dist"); [exact H |].
  destruct (ReadDir sys (Dir sys p)) as [es | err]; [| exact H].
  destruct (hasGitDir es); [exact H |].
  apply (IH _ _ H). lia.
Qed.

Lemma loop_deterministic (sys : System) (f1 f2 : nat) (p : string) (x y : LoopExit) :
  ancestorLoop sys f1 p = Some x -> ancestorLoop sys f2 p = Some y -> x = y.
Proof.
  intros H1 H2.
  pose proof (loop_fuel_mono sys f1 p x H1 (f1 + f2) ltac:(lia)) as E1.
  pose proof (loop_fuel_mono sys f2 p y H2 (f1 + f2) ltac:(lia)) as E2.
  congruence.
Qed.

(** What the loop finds at the first ancestor that is not undecided. *)
Lemma loop_at (sys : System) (p : string) (k fuel : nat) :
  (forall i, i < k -> undecided sys (ancestor sys p i)) ->
  k < fuel ->
  let dir := ancestor sys p k in
  (atRoot sys dir -> ancestorLoop sys fuel p = Some Break)
  /\ (~ atRoot sys dir -> Base sys dir = "dist" ->
      ancestorLoop sys fuel p = Some (Verdict false))
  /\ (~ atRoot sys dir -> Base sys dir <> "dist" -> containsGit sys dir ->
      ancestorLoop sys fuel p = Some (Verdict true)).
Proof.
  intros Hun Hk dir.
  replace fuel with (k + S (fuel - S k)) by lia.
  unfold dir. rewrite ancestor_iter.
  set (q := Nat.iter k (Dir sys) p).
  unfold atRoot.
  repeat split.
  - intros Hroot. apply loop_skip; [exact Hun |]. simpl. fold q.
    rewrite Hroot. reflexivity.
  - intros Hroot Hbase. apply loop_skip; [exact Hun |]. simpl. fold q.
    destruct (HasSuffix (Dir sys q) (Separator sys)); [congruence |].
    rewrite Hbase. reflexivity.
  - intros Hroot Hbase (es & e & Hread & Hin & Hname & Hdir).
    apply loop_skip; [exact Hun |]. simpl. fold q.
    destruct (HasSuffix (Dir sys q) (Separator sys)); [congruence |].
    destruct (String.eqb_spec (Base sys (Dir sys q)) "dist"); [contradiction |].
    rewrite Hread.
    assert (Hg : hasGitDir es = true) by (apply hasGitDir_true; eauto).
    rewrite Hg. reflexivity.
Qed.

(** *** The three ways through [DevMode] *)

Lemma DevMode_cached (sys : System) (fuel : nat) (g : Globals) (b : bool) :
  devMode g = Some b -> DevMode sys fuel g = Some (g, (b, None)).
Proof. unfold DevMode. intros ->. reflexivity. Qed.

Lemma DevMode_marked (sys : System) (fuel : nat) :
  marked sys ->
  DevMode sys fuel {| devMode := None |}
    = Some ({| devMode := Some true |}, (true, None)).
Proof. unfold DevMode, marked. simpl. intros ->. reflexivity. Qed.

Lemma DevMode_walk (sys : System) (fuel : nat) (link p : string) :
  ~ marked sys ->
  Executable sys = Ok link ->
  EvalSymlinks sys link = Ok p ->
  DevMode sys fuel {| devMode := None |} =
    match ancestorLoop sys fuel p with
    | None => None
    | Some Break => Some ({| devMode := None |}, (false, None))
    | Some (Verdict b) => Some ({| devMode := Some b |}, (b, None))
    | Some (Fails e) => Some ({| devMode := None |}, (false, Some e))
    end.
Proof.
  unfold DevMode, marked. simpl. intros Hm -> ->.
  destruct (LookupEnv sys "NODE_ENV") as [v |]; simpl; [| reflexivity].
  destruct (String.eqb_spec v "development"); [subst; contradiction | reflexivity].
Qed.

(** *** The cache *)

Lemma DevMode_fills_cache (sys : System) (fuel : nat) (g' : Globals)
    (r : bool * option error) (b : bool) :
  DevMode sys fuel {| devMode := None |} = Some (g', r) ->
  devMode g' = Some b ->
  g' = {| devMode := Some b |} /\ r = (b, None).
Proof.
  unfold DevMode. simpl.
  destruct (LookupEnv sys "NODE_ENV") as [v |]; simpl.
  1: destruct (String.eqb v "development").
  all: try (intros H Hc; inversion H; subst; simpl in Hc; inversion Hc; subst;
            split; reflexivity).
  all: destruct (Executable sys) as [link | e1];
    [destruct (EvalSymlinks sys link) as [p | e2];
     [destruct (ancestorLoop sys fuel p) as [[| v' | e3] |] |] |];
    intros H Hc; inversion H; subst; simpl in Hc; inversion Hc; subst;
    split; reflexivity.
Qed.

Lemma reachable_cache_sound (sys : System) (g : Globals) :
  reachable sys g -> cache_sound sys g.
Proof.
  induction 1 as [| g g' fuel r Hreach IH Hcall].
  - intros b Hb. discriminate.
  - destruct g as [[c |]].
    + rewrite (DevMode_cached sys fuel {| devMode := Some c |} c eq_refl) in Hcall.
      inversion Hcall; subst. exact IH.
    + intros b Hb.
      destruct (DevMode_fills_cache sys fuel g' r b Hcall Hb) as [-> ->].
      exists fuel. exact Hcall.
Qed.

(** On a reachable cache, [DevMode] returns what the loop finds. *)
Lemma DevMode_follows_loop (sys : System) (g : Globals) (fuel : nat)
    (link p : string) (x : LoopExit) :
  reachable sys g ->
  ~ marked sys ->
  Executable sys = Ok link ->
  EvalSymlinks sys link = Ok p ->
  ancestorLoop sys fuel p = Some x ->
  match x with
  | Break => returns sys fuel g false
  | Verdict b => returns sys fuel g b
  | Fails _ => True
  end.
Proof.
  intros Hreach Hm He Hs Hloop.
  pose proof (reachable_cache_sound sys g Hreach) as Hsound.
  destruct g as [[c |]].
  - destruct (Hsound c eq_refl) as [fuel0 H0].
    rewrite (DevMode_walk sys fuel0 link p Hm He Hs) in H0.
    assert (Hc : ancestorLoop sys fuel0 p = Some (Verdict c)).
    { destruct (ancestorLoop sys fuel0 p) as [[| v | e] |]; inversion H0; reflexivity. }
    pose proof (loop_deterministic sys fuel0 fuel p _ _ Hc Hloop) as <-.
    eexists. apply DevMode_cached. reflexivity.
  - unfold returns. rewrite (DevMode_walk sys fuel link p Hm He Hs), Hloop.
    destruct x; eauto.
Qed.

(** C7: on every cache state that calls of [DevMode] lead to, (1) if
    [NODE_ENV] is [development], [DevMode] returns true whatever the file
    system is and with no iteration of the ancestor loop (any [fuel], also
    0); (2) otherwise, the executable's resolved path being [p] and its
    first [k] ancestors deciding nothing, [DevMode] returns false if the
    [k]-th ancestor is the root, false if it is named [dist], and true if it
    is not named [dist] and contains a [.git] directory; [k + 1] iterations
    are enough. *)
Theorem DevMode_verdict (sys : System) (g : Globals) :
  reachable sys g ->
  (marked sys -> forall fuel, returns sys fuel g true)
  /\ (~ marked sys ->
      forall link p k fuel,
        Executable sys = Ok link ->
        EvalSymlinks sys link = Ok p ->
        (forall i, i < k -> undecided sys (ancestor sys p i)) ->
        k < fuel ->
        let dir := ancestor sys p k in
        (atRoot sys dir -> returns sys fuel g false)
        /\ (~ atRoot sys dir -> Base sys dir = "dist" -> returns sys fuel g false)
        /\ (~ atRoot sys dir -> Base sys dir <> "dist" -> containsGit sys dir ->
            returns sys fuel g true)).
Proof.
  intros Hreach. split.
  - intros Hm fuel.
    pose proof (reachable_cache_sound sys g Hreach) as Hsound.
    destruct g as [[c |]].
    + destruct (Hsound c eq_refl) as [fuel0 H0].
      rewrite (DevMode_marked sys fuel0 Hm) in H0. inversion H0; subst.
      eexists. apply DevMode_cached. reflexivity.
    + eexists. apply DevMode_marked. exact Hm.
  - intros Hm link p k fuel He Hs Hun Hk dir.
    destruct (loop_at sys p k fuel Hun Hk) as (Hroot & Hdist & Hgit).
    repeat split.
    + intros H.
      exact (DevMode_follows_loop sys g fuel link p Break Hreach Hm He Hs (Hroot H)).
    + intros H1 H2.
      exact (DevMode_follows_loop sys g fuel link p (Verdict false)
               Hreach Hm He Hs (Hdist H1 H2)).
    + intros H1 H2 H3.
      exact (DevMode_follows_loop sys g fuel link p (Verdict true)
               Hreach Hm He Hs (Hgit H1 H2 H3)).
Qed.

Lemma DevMode_verdict_witness :
  let start := {| devMode := None |} in
  let checkout := unix noEnv "/home/dev/rd/bin/rdctl" ["/home/dev/rd"] in
  let packaged := unix noEnv "/home/dev/rd/dist/rdctl" ["/home/dev/rd"] in
  let installed := unix noEnv "/opt/rdctl" [] in
  let marker := unix devEnv "/opt/rdctl" [] in
  (reachable checkout start /\ ~ marked checkout
   /\ containsGit checkout "/home/dev/rd" /\ returns checkout 2 start true)
  /\ (~ marked packaged /\ returns packaged 1 start false)
  /\ (~ marked installed /\ returns installed 2 start false)
  /\ (marked marker /\ returns marker 0 start true).
Proof.
  intros start checkout packaged installed marker.
  assert (Hm : forall exe dirs, ~ marked (unix noEnv exe dirs))
    by (intros exe dirs H; discriminate H).
  assert (Hg : containsGit checkout "/home/dev/rd").
  { exists [ {| Name := "src"; IsDir := true |};
             {| Name := ".git"; IsDir := true |};
             {| Name := "package.json"; IsDir := false |} ],
           {| Name := ".git"; IsDir := true |}.
    split; [reflexivity |]. split; [right; left; reflexivity |].
    split; reflexivity. }
  assert (Hun : forall sys : System,
             Dir sys = unixDir -> Base sys = unixBase -> Separator sys = "/" ->
             ReadDir sys "/opt" = Ok [ {| Name := "bin"; IsDir := true |} ] ->
             undecided sys "/opt").
  { intros sys HD HB HS HR. unfold undecided, atRoot. rewrite HB, HS, HR.
    split; [intros H; discriminate H |].
    split; [intros H; discriminate H |].
    eexists. split; [reflexivity |].
    intros e [<- | []] [Hn _]. discriminate Hn. }
  split; [| split; [| split]].
  - split; [apply reach_start |]. split; [apply Hm |]. split; [exact Hg |].
    refine (proj2 (proj2 (proj2 (DevMode_verdict checkout start (reach_start _))
              (Hm _ _) "/home/dev/rd/bin/rdctl" "/home/dev/rd/bin/rdctl" 1 2
              eq_refl eq_refl _ _)) _ _ Hg).
    + intros i Hi. assert (i = 0) as -> by lia.
      split; [intros H; discriminate H |].
      split; [intros H; discriminate H |].
      eexists. split; [reflexivity |].
      intros e [<- | []] [Hn _]. discriminate Hn.
    + lia.
    + intros H; discriminate H.
    + intros H; discriminate H.
  - split; [apply Hm |].
    refine (proj1 (proj2 (proj2 (DevMode_verdict packaged start (reach_start _))
              (Hm _ _) "/home/dev/rd/dist/rdctl" "/home/dev/rd/dist/rdctl" 0 1
              eq_refl eq_refl _ _)) _ eq_refl).
    + intros i Hi. lia.
    + lia.
    + intros H; discriminate H.
  - split; [apply Hm |].
    refine (proj1 (proj2 (DevMode_verdict installed start (reach_start _))
              (Hm _ _) "/opt/rdctl" "/opt/rdctl" 1 2 eq_refl eq_refl _ _) eq_refl).
    + intros i Hi. assert (i = 0) as -> by lia.
      apply Hun; reflexivity.
    + lia.
  - split; [reflexivity |].
    exact (proj1 (DevMode_verdict marker start (reach_start _)) eq_refl 0).
Defined.

End DevModeFacts.

(** ** Properties of the path set *)

Module PathsFacts.
Import Paths.

Lemma assignProperty_class (this this' : Instance) (key value : string) :
  assignProperty this key value = Normal this' -> class this' = class this.
Proof.
  unfold assignProperty.
  destruct (own this !! key); [intros H; inversion H; reflexivity |].
  destruct (getter (class this) key); [discriminate |].
  destruct (String.eqb key "__proto__"); intros H; inversion H; reflexivity.
Qed.

(** An assignment never creates an own property under a name for which
    the class has a getter. *)
Lemma assignProperty_getter_name (this this' : Instance) (key value name : string) :
  own this !! name = None ->
  is_Some (getter (class this) name) ->
  assignProperty this key value = Normal this' ->
  own this' !! name = None.
Proof.
  intros Hown Hget. unfold assignProperty.
  destruct (own this !! key) eqn:Hk.
  - intros H; inversion H; subst; simpl.
    rewrite lookup_insert_ne; [exact Hown | congruence].
  - destruct (getter (class this) key) eqn:Hg; [discriminate |].
    assert (Hne : key <> name).
    { intros ->. rewrite Hg in Hget. destruct Hget as [? ?]. discriminate. }
    destruct (String.eqb key "__proto__"); intros H; inversion H; subst; simpl;
      [exact Hown | rewrite lookup_insert_ne; [exact Hown | exact Hne]].
Qed.

Lemma Object_assign_invariant (pathsData : list (string * string)) :
  forall (this this' : Instance) (name : string),
    own this !! name = None ->
    is_Some (getter (class this) name) ->
    Object_assign this pathsData = Normal this' ->
    class this' = class this /\ own this' !! name = None.
Proof.
  induction pathsData as [| [key value] rest IH]; intros this this' name Hown Hget; simpl.
  - intros H; inversion H; subst. split; [reflexivity | exact Hown].
  - destruct (assignProperty this key value) as [mid |] eqn:Hmid; [| discriminate].
    intros H.
    pose proof (assignProperty_class _ _ _ _ Hmid) as Hc.
    pose proof (assignProperty_getter_name _ _ _ _ name Hown Hget Hmid) as Ho.
    rewrite <- Hc in Hget.
    destruct (IH mid this' name Ho Hget H) as [Hc' Ho'].
    split; [congruence | exact Ho'].
Qed.

(** The class fields are not among the names that have a getter. *)
Lemma fields_miss_getters (c : Class) (f : Field) (e : Exception) :
  getter c (fieldName f) = Some e ->
  (list_to_map (map (fun f => (fieldName f, "")) (classFields c))
     : gmap string string) !! fieldName f = None.
Proof.
  destruct c, f; simpl; intros H; try discriminate H; reflexivity.
Qed.

(** Reading a field for which the class has a getter throws what the
    getter throws, on every instance the constructor returns. *)
Lemma new_get_throws (c : Class) (pathsData : list (string * string))
    (this : Instance) (f : Field) (e : Exception) :
  new c pathsData = Normal this ->
  getter c (fieldName f) = Some e ->
  class this = c /\ get this f = Throw e.
Proof.
  unfold new. intros Hnew Hget.
  destruct (Object_assign_invariant pathsData
              {| class := c;
                 own := list_to_map (map (fun f => (fieldName f, "")) (classFields c)) |}
              this (fieldName f)
              (fields_miss_getters c f e Hget)
              (ex_intro _ e Hget) Hnew) as [Hc Ho].
  simpl in Hc. split; [exact Hc |].
  unfold get. rewrite Ho, Hc, Hget. reflexivity.
Qed.

(** The constructor returns when no key of the path data meets a getter. *)
Lemma Object_assign_returns (pathsData : list (string * string)) :
  forall this,
    (forall key value, In (key, value) pathsData -> getter (class this) key = None) ->
    exists this', Object_assign this pathsData = Normal this'
                  /\ class this' = class this.
Proof.
  induction pathsData as [| [key value] rest IH]; intros this Hkeys; simpl.
  - eauto.
  - assert (Hk : getter (class this) key = None) by (apply (Hkeys key value); left; reflexivity).
    assert (exists mid, assignProperty this key value = Normal mid
                        /\ class mid = class this) as (mid & -> & Hc).
    { unfold assignProperty. rewrite Hk.
      destruct (own this !! key); [eauto |].
      destruct (String.eqb key "__proto__"); eauto. }
    destruct (IH mid) as (this' & Hthis & Hc').
    { intros k v Hin. rewrite Hc. apply (Hkeys k v). right. exact Hin. }
    exists this'. split; [exact Hthis | congruence].
Qed.

Lemma new_returns (c : Class) (pathsData : list (string * string)) :
  (forall key value, In (key, value) pathsData -> getter c key = None) ->
  exists this, new c pathsData = Normal this /\ class this = c.
Proof.
  intros Hkeys. unfold new.
  exact (Object_assign_returns pathsData
           {| class := c;
              own := list_to_map (map (fun f => (fieldName f, "")) (classFields c)) |}
           Hkeys).
Qed.

Lemma new_class (c : Class) (pathsData : list (string * string)) (this : Instance) :
  new c pathsData = Normal this -> class this = c.
Proof.
  intros H.
  destruct c.
  - exact (proj1 (new_get_throws UnixPaths pathsData this wslDistro _ H eq_refl)).
  - exact (proj1 (new_get_throws WindowsPaths pathsData this lima _ H eq_refl)).
Qed.

(** *** Selection of the variant *)

Lemma getPaths_unix (proc : Process) :
  platform proc = "darwin" \/ platform proc = "linux" ->
  getPaths proc = new UnixPaths (loadPathsData proc).
Proof. unfold getPaths. intros [-> | ->]; reflexivity. Qed.

Lemma getPaths_windows (proc : Process) :
  platform proc = "win32" ->
  getPaths proc = new WindowsPaths (loadPathsData proc).
Proof. unfold getPaths. intros ->. reflexivity. Qed.

(** C8: [getPaths] is the [UnixPaths] constructor on the path data when the
    platform is [darwin] or [linux], the [WindowsPaths] constructor when it
    is [win32], and for every other platform it throws the error
    "Platform ... is not supported." and returns nothing. Hence an instance
    that is returned has the class of its platform, and one is returned
    whenever no key of the path data is a getter of that class. *)
Theorem getPaths_selects_by_platform (proc : Process) :
  (platform proc = "darwin" \/ platform proc = "linux" ->
   getPaths proc = new UnixPaths (loadPathsData proc))
  /\ (platform proc = "win32" ->
      getPaths proc = new WindowsPaths (loadPathsData proc))
  /\ (platform proc <> "darwin" -> platform proc <> "linux" ->
      platform proc <> "win32" ->
      getPaths proc
        = Throw (Error ("Platform " +:+ quoted (platform proc)
                        +:+ " is not supported."))
      /\ forall this, getPaths proc <> Normal this)
  /\ (forall this, getPaths proc = Normal this ->
        (class this = UnixPaths
         /\ (platform proc = "darwin" \/ platform proc = "linux"))
        \/ (class this = WindowsPaths /\ platform proc = "win32"))
  /\ (forall c,
        (c = UnixPaths /\ (platform proc = "darwin" \/ platform proc = "linux"))
        \/ (c = WindowsPaths /\ platform proc = "win32") ->
        (forall key value, In (key, value) (loadPathsData proc) -> getter c key = None) ->
        exists this, getPaths proc = Normal this /\ class this = c).
Proof.
  pose proof (getPaths_unix proc) as Hu.
  pose proof (getPaths_windows proc) as Hw.
  split; [exact Hu |]. split; [exact Hw |]. split; [| split].
  - intros Hd Hl Hwin. unfold getPaths.
    destruct (String.eqb_spec (platform proc) "darwin"); [contradiction |].
    destruct (String.eqb_spec (platform proc) "linux"); [contradiction |].
    destruct (String.eqb_spec (platform proc) "win32"); [contradiction |].
    split; [reflexivity | discriminate].
  - intros this. unfold getPaths.
    destruct (String.eqb_spec (platform proc) "darwin") as [Hd | Hd];
      [intros H; left; split; [exact (new_class _ _ _ H) | left; exact Hd] |].
    destruct (String.eqb_spec (platform proc) "linux") as [Hl | Hl];
      [intros H; left; split; [exact (new_class _ _ _ H) | right; exact Hl] |].
    destruct (String.eqb_spec (platform proc) "win32") as [Hwin | Hwin];
      [intros H; right; split; [exact (new_class _ _ _ H) | exact Hwin] |].
    discriminate.
  - intros c [[-> Hp] | [-> Hp]] Hkeys.
    + rewrite (Hu Hp). apply new_returns. exact Hkeys.
    + rewrite (Hw Hp). apply new_returns. exact Hkeys.
Qed.

Lemma getPaths_selects_by_platform_witness :
  (exists this, getPaths (Machines.process "linux" Machines.noHelper) = Normal this
                /\ class this = UnixPaths)
  /\ (exists this,
        getPaths (Machines.process "win32" (Machines.helperPrints "logs" "C:/logs"))
          = Normal this
        /\ class this = WindowsPaths)
  /\ getPaths (Machines.process "freebsd" Machines.noHelper)
     = Throw (Error ("Platform " +:+ quoted "freebsd" +:+ " is not supported.")).
Proof.
  split; [| split].
  - apply (proj2 (proj2 (proj2 (proj2
             (getPaths_selects_by_platform (Machines.process "linux" Machines.noHelper)))))
             UnixPaths).
    + left. split; [reflexivity | right; reflexivity].
    + intros key value [H | [H | []]]; inversion H; reflexivity.
  - apply (proj2 (proj2 (proj2 (proj2
             (getPaths_selects_by_platform
                (Machines.process "win32" (Machines.helperPrints "logs" "C:/logs"))))))
             WindowsPaths).
    + right. split; reflexivity.
    + intros key value [H | []]; inversion H; reflexivity.
  - apply (proj1 (proj2 (proj2
             (getPaths_selects_by_platform (Machines.process "freebsd" Machines.noHelper)))));
      discriminate.
Defined.

(** *** Fields of the other platform *)

(** C9: on every instance that [getPaths] returns for [darwin] or [linux],
    reading [wslDistro] or [wslDistroData] throws the "not available for
    Unix" error of that field; on every instance it returns for [win32],
    reading [lima], [integration], [oldIntegration],
    [deploymentProfileSystem] or [deploymentProfileUser] throws the error of
    that field. None of these reads gives a string. *)
Theorem foreign_fields_throw (proc : Process) (this : Instance) :
  getPaths proc = Normal this ->
  (platform proc = "darwin" \/ platform proc = "linux" ->
   get this wslDistro = Throw (Error "wslDistro not available for Unix")
   /\ get this wslDistroData = Throw (Error "wslDistroData not available for Unix"))
  /\ (platform proc = "win32" ->
      get this lima = Throw (Error "lima not available for Windows")
      /\ get this integration
         = Throw (Error "Internal error: integration path not available for Windows")
      /\ get this oldIntegration
         = Throw (Error "Internal error: oldIntegration path not available for Windows")
      /\ get this deploymentProfileSystem
         = Throw (Error "Internal error: Windows profiles will be read from Registry")
      /\ get this deploymentProfileUser
         = Throw (Error "Internal error: Windows profiles will be read from Registry")).
Proof.
  intros Hget.
  pose proof (getPaths_unix proc) as Hu.
  pose proof (getPaths_windows proc) as Hw.
  split.
  - intros Hp. rewrite (Hu Hp) in Hget.
    split; refine (proj2 (new_get_throws UnixPaths _ this _ _ Hget _)); reflexivity.
  - intros Hp. rewrite (Hw Hp) in Hget.
    repeat split;
      refine (proj2 (new_get_throws WindowsPaths _ this _ _ Hget _)); reflexivity.
Qed.

Lemma foreign_fields_throw_witness :
  (exists this,
     getPaths (Machines.process "darwin" Machines.noHelper) = Normal this
     /\ get this wslDistro = Throw (Error "wslDistro not available for Unix"))
  /\ (exists this,
        getPaths (Machines.process "win32" (Machines.helperPrints "logs" "C:/logs"))
          = Normal this
        /\ get this logs = Normal (Some "C:/logs")
        /\ get this lima = Throw (Error "lima not available for Windows")).
Proof.
  split.
  - eexists. split; [reflexivity |].
    exact (proj1 (proj1 (foreign_fields_throw
                           (Machines.process "darwin" Machines.noHelper) _ eq_refl)
                    (or_introl eq_refl))).
  - eexists. split; [reflexivity |]. split; [reflexivity |].
    exact (proj1 (proj2 (foreign_fields_throw
                           (Machines.process "win32"
                              (Machines.helperPrints "logs" "C:/logs")) _ eq_refl)
                    eq_refl)).
Defined.

End PathsFacts.

(** ** Further properties of connection resolution *)

Module ConfigMore.
Import Go Config Vocabulary.

(** The globals after the first two statements of
    [finishConnectionSettings]. *)
Lemma prepared_stable (g : Globals) (c : ConnectionInfo.t) :
  let g' := setConnectionSettings c (setConfigPath (effectivePath g) g) in
  effectivePath g' = effectivePath g
  /\ DefaultConfigPath g' = DefaultConfigPath g
  /\ setConfigPath (effectivePath g') g' = g'.
Proof.
  unfold effectivePath. destruct g as [cs path dflt]; simpl.
  destruct (String.eqb_spec path ""); simpl.
  - destruct (String.eqb_spec dflt ""); simpl; subst; repeat split; reflexivity.
  - destruct (String.eqb_spec path ""); [contradiction |].
    repeat split; reflexivity.
Qed.

Lemma complete_merge (g : Globals) (settings : CLIConfig.t) :
  overridesComplete g ->
  merged g settings = ConnectionInfo.setHost (hostOrDefault g) (connectionSettings g).
Proof.
  unfold overridesComplete, merged. destruct g as [[u p h n] path dflt]; simpl.
  intros (Hu & Hp & Hn).
  destruct (String.eqb_spec u ""), (String.eqb_spec p ""), (String.eqb_spec n "");
    try contradiction; reflexivity.
Qed.

(** X1: when the path read is the default one and user, password and port
    are all overridden, [GetConnectionInfo] returns the overrides, with the
    host defaulted, whatever the file system holds and whatever
    [json.Unmarshal] does: the config file has no influence. *)
Theorem complete_overrides_ignore_default_file (w : World) (g : Globals) :
  effectivePath g = DefaultConfigPath g ->
  overridesComplete g ->
  snd (GetConnectionInfo w g)
    = Ok (ConnectionInfo.setHost (hostOrDefault g) (connectionSettings g)).
Proof.
  intros Hpath Hcomplete.
  pose proof (proj2 (ConfigFacts.insufficient_iff g) Hcomplete) as Hins.
  destruct (ConfigFacts.read_cases w g)
    as [(op & errno & Hf) | [(ct & err & Hf & Hj) | (ct & st & Hf & Hj)]].
  - unfold GetConnectionInfo. rewrite (ConfigFacts.finish_unreadable w g op errno Hf).
    rewrite ConfigFacts.insufficient_after_setHost, Hpath, String.eqb_refl, Hins.
    reflexivity.
  - unfold GetConnectionInfo.
    rewrite (ConfigFacts.finish_undecodable w g ct err Hf Hj).
    rewrite ConfigFacts.insufficient_after_setHost, Hpath, String.eqb_refl, Hins.
    reflexivity.
  - rewrite (ConfigFacts.decoded_config_resolves w g ct st Hf Hj). simpl.
    rewrite (complete_merge g st Hcomplete). reflexivity.
Qed.

Lemma complete_overrides_ignore_default_file_witness :
  snd (GetConnectionInfo
         (Worlds.world (Worlds.oneFile Worlds.defaultPath "not json"))
         (Worlds.flags "admin" "secret" "10.0.0.5" "6107" ""))
    = Ok (ConnectionInfo.Build "admin" "secret" "10.0.0.5" "6107").
Proof.
  apply (complete_overrides_ignore_default_file
           (Worlds.world (Worlds.oneFile Worlds.defaultPath "not json"))
           (Worlds.flags "admin" "secret" "10.0.0.5" "6107" "")).
  - reflexivity.
  - split; [discriminate |]. split; discriminate.
Defined.

Lemma gate_open (g : Globals) :
  negb (String.eqb (effectivePath g) (DefaultConfigPath g))
    || insufficientConnectionInfo g = true ->
  effectivePath g <> DefaultConfigPath g \/ ~ overridesComplete g.
Proof.
  intros H. apply orb_true_iff in H. destruct H as [H | H].
  - left. apply String.eqb_neq. apply negb_true_iff. exact H.
  - right. intros Hc. apply ConfigFacts.insufficient_iff in Hc. congruence.
Qed.

(** X2: every error [GetConnectionInfo] returns is the error of
    [os.ReadFile] for the path read, or the error of [json.Unmarshal]
    wrapped with that path; and it is returned only when the path is not
    the default one or an override of user, password or port is missing.
    A file that is read and decoded never leads to an error. *)
Theorem errors_come_from_the_file (w : World) (g : Globals) (e : error) :
  snd (GetConnectionInfo w g) = Err e ->
  ((exists op errno,
      files w (effectivePath g) = Failure op errno
      /\ e = PathError op (effectivePath g) errno)
   \/ (exists content err,
         files w (effectivePath g) = Content content
         /\ Unmarshal w content = Err err
         /\ e = WrapError "error in config file %q: %w" [effectivePath g] err))
  /\ (effectivePath g <> DefaultConfigPath g \/ ~ overridesComplete g).
Proof.
  intros H.
  destruct (ConfigFacts.read_cases w g)
    as [(op & errno & Hf) | [(ct & err & Hf & Hj) | (ct & st & Hf & Hj)]].
  - unfold GetConnectionInfo in H.
    rewrite (ConfigFacts.finish_unreadable w g op errno Hf) in H.
    rewrite ConfigFacts.insufficient_after_setHost in H.
    destruct (_ || _) eqn:Hgate in H; simpl in H; [| discriminate].
    split; [| exact (gate_open g Hgate)].
    left. exists op, errno. split; [exact Hf | congruence].
  - unfold GetConnectionInfo in H.
    rewrite (ConfigFacts.finish_undecodable w g ct err Hf Hj) in H.
    rewrite ConfigFacts.insufficient_after_setHost in H.
    destruct (_ || _) eqn:Hgate in H; simpl in H; [| discriminate].
    split; [| exact (gate_open g Hgate)].
    right. exists ct, err. split; [exact Hf |]. split; [exact Hj | congruence].
  - rewrite (ConfigFacts.decoded_config_resolves w g ct st Hf Hj) in H.
    discriminate.
Qed.

Lemma errors_come_from_the_file_witness :
  let w := Worlds.world (Worlds.oneFile "/tmp/rd.json" "{") in
  let g := Worlds.flags "admin" "secret" "" "6107" "/tmp/rd.json" in
  snd (GetConnectionInfo w g)
    = Err (WrapError "error in config file %q: %w" ["/tmp/rd.json"]
             (JSONError "unexpected token in JSON text"))
  /\ (effectivePath g <> DefaultConfigPath g \/ ~ overridesComplete g).
Proof.
  split; [reflexivity |].
  exact (proj2 (errors_come_from_the_file
                  (Worlds.world (Worlds.oneFile "/tmp/rd.json" "{"))
                  (Worlds.flags "admin" "secret" "" "6107" "/tmp/rd.json")
                  _ eq_refl)).
Defined.

(** Globals on which the first two statements of
    [finishConnectionSettings] change nothing. *)
Lemma settled_fixed (g : Globals) :
  configPath g = effectivePath g ->
  ConnectionInfo.Host (connectionSettings g) <> "" ->
  hostOrDefault g = ConnectionInfo.Host (connectionSettings g)
  /\ setConnectionSettings
       (ConnectionInfo.setHost (hostOrDefault g) (connectionSettings g))
       (setConfigPath (effectivePath g) g) = g.
Proof.
  unfold hostOrDefault. destruct g as [[u p h n] path dflt]; simpl.
  intros <- Hh.
  destruct (String.eqb_spec h ""); [contradiction |].
  split; reflexivity.
Qed.

Lemma hostOrDefault_set (g : Globals) : hostOrDefault g <> "".
Proof.
  unfold hostOrDefault.
  destruct (String.eqb_spec (ConnectionInfo.Host (connectionSettings g)) "");
    [discriminate | assumption].
Qed.

Lemma merged_again (g : Globals) (settings : CLIConfig.t) (path : string) :
  merged (setConnectionSettings (merged g settings) (setConfigPath path g)) settings
    = merged g settings.
Proof.
  unfold merged, hostOrDefault. destruct g as [[u p h n] cp dflt]; simpl.
  destruct (String.eqb_spec u "");
    [destruct (String.eqb_spec (CLIConfig.User settings) "") |];
  (destruct (String.eqb_spec p "");
    [destruct (String.eqb_spec (CLIConfig.Password settings) "") |]);
  (destruct (String.eqb_spec n "");
    [destruct (String.eqb_spec (Itoa (CLIConfig.Port settings)) "") |]);
  (destruct (String.eqb_spec h ""); simpl);
  repeat match goal with
    | |- context [String.eqb ?a ?b] => destruct (String.eqb_spec a b)
    end;
  try congruence; try reflexivity.
Qed.

(** X3: resolving a second time, in the same world and from the globals
    the first call left, returns the same result and leaves the same
    globals. *)
Theorem GetConnectionInfo_again (w : World) (g : Globals) :
  GetConnectionInfo w (fst (GetConnectionInfo w g)) = GetConnectionInfo w g.
Proof.
  destruct (ConfigFacts.read_cases w g)
    as [(op & errno & Hf) | [(ct & err & Hf & Hj) | (ct & st & Hf & Hj)]].
  - set (g1 := setConnectionSettings
                 (ConnectionInfo.setHost (hostOrDefault g) (connectionSettings g))
                 (setConfigPath (effectivePath g) g)).
    assert (He : effectivePath g1 = effectivePath g)
      by exact (proj1 (prepared_stable g (connectionSettings g1))).
    assert (Hd : DefaultConfigPath g1 = DefaultConfigPath g) by reflexivity.
    destruct (settled_fixed g1 (eq_sym He) (hostOrDefault_set g)) as [_ Hfix].
    assert (E : GetConnectionInfo w g =
                (g1, if negb (String.eqb (effectivePath g) (DefaultConfigPath g))
                        || insufficientConnectionInfo g
                     then Err (PathError op (effectivePath g) errno)
                     else Ok (connectionSettings g1))).
    { unfold GetConnectionInfo. rewrite (ConfigFacts.finish_unreadable w g op errno Hf).
      fold g1. change (insufficientConnectionInfo g1) with (insufficientConnectionInfo g).
      destruct (_ || _); reflexivity. }
    rewrite E. simpl fst.
    unfold GetConnectionInfo at 1.
    rewrite (ConfigFacts.finish_unreadable w g1 op errno) by (rewrite He; exact Hf).
    rewrite Hfix, He, Hd.
    change (insufficientConnectionInfo g1) with (insufficientConnectionInfo g).
    destruct (_ || _); reflexivity.
  - set (g1 := setConnectionSettings
                 (ConnectionInfo.setHost (hostOrDefault g) (connectionSettings g))
                 (setConfigPath (effectivePath g) g)).
    assert (He : effectivePath g1 = effectivePath g)
      by exact (proj1 (prepared_stable g (connectionSettings g1))).
    assert (Hd : DefaultConfigPath g1 = DefaultConfigPath g) by reflexivity.
    destruct (settled_fixed g1 (eq_sym He) (hostOrDefault_set g)) as [_ Hfix].
    assert (E : GetConnectionInfo w g =
                (g1, if negb (String.eqb (effectivePath g) (DefaultConfigPath g))
                        || insufficientConnectionInfo g
                     then Err (WrapError "error in config file %q: %w"
                                 [effectivePath g] err)
                     else Ok (connectionSettings g1))).
    { unfold GetConnectionInfo.
      rewrite (ConfigFacts.finish_undecodable w g ct err Hf Hj).
      fold g1. change (insufficientConnectionInfo g1) with (insufficientConnectionInfo g).
      destruct (_ || _); reflexivity. }
    rewrite E. simpl fst.
    unfold GetConnectionInfo at 1.
    rewrite (ConfigFacts.finish_undecodable w g1 ct err) by (try rewrite He; assumption).
    rewrite Hfix, He, Hd.
    change (insufficientConnectionInfo g1) with (insufficientConnectionInfo g).
    destruct (_ || _); reflexivity.
  - rewrite (ConfigFacts.decoded_config_resolves w g ct st Hf Hj). simpl fst.
    set (g1 := setConnectionSettings (merged g st) (setConfigPath (effectivePath g) g)).
    assert (He : effectivePath g1 = effectivePath g)
      by exact (proj1 (prepared_stable g (merged g st))).
    assert (Hc : setConfigPath (effectivePath g1) g1 = g1)
      by exact (proj2 (proj2 (prepared_stable g (merged g st)))).
    rewrite (ConfigFacts.decoded_config_resolves w g1 ct st)
      by (try rewrite He; assumption).
    assert (Hm : merged g1 st = merged g st) by apply merged_again.
    rewrite Hm, Hc. reflexivity.
Qed.

(** [strconv.Itoa] never returns the empty string. *)
Lemma Itoa_not_empty (n : Z) : Itoa n <> "".
Proof.
  unfold Itoa. destruct (Z.to_int n) as [d | d]; destruct d; discriminate.
Qed.

(** X4: a descriptor that [GetConnectionInfo] returns always has a host,
    the override or 127.0.0.1. If the file was not read and decoded, the
    descriptor is the overrides and its user, password and port are all
    non-empty; if it was, the port is non-empty, while user and password
    are empty when neither an override nor the file gives them. *)
Theorem returned_descriptor (w : World) (g : Globals) (c : ConnectionInfo.t) :
  snd (GetConnectionInfo w g) = Ok c ->
  ConnectionInfo.Host c = hostOrDefault g
  /\ ConnectionInfo.Host c <> ""
  /\ ConnectionInfo.Port c <> ""
  /\ ((exists content settings,
         files w (effectivePath g) = Content content
         /\ Unmarshal w content = Ok settings
         /\ c = merged g settings)
      \/ (c = ConnectionInfo.setHost (hostOrDefault g) (connectionSettings g)
          /\ overridesComplete g
          /\ effectivePath g = DefaultConfigPath g)).
Proof.
  intros H.
  assert (Hgate : forall e (r : ConnectionInfo.t),
             (if negb (String.eqb (effectivePath g) (DefaultConfigPath g))
                 || insufficientConnectionInfo g
              then Err e else Ok r) = Ok c ->
             r = c /\ overridesComplete g
             /\ effectivePath g = DefaultConfigPath g).
  { intros e r Hr.
    destruct (String.eqb_spec (effectivePath g) (DefaultConfigPath g)) as [Heq | Hne];
      simpl in Hr; [| discriminate].
    destruct (insufficientConnectionInfo g) eqn:Hi; [discriminate |].
    apply ConfigFacts.insufficient_iff in Hi. inversion Hr. auto. }
  destruct (ConfigFacts.read_cases w g)
    as [(op & errno & Hf) | [(ct & err & Hf & Hj) | (ct & st & Hf & Hj)]].
  - unfold GetConnectionInfo in H.
    rewrite (ConfigFacts.finish_unreadable w g op errno Hf) in H.
    rewrite ConfigFacts.insufficient_after_setHost in H.
    assert (Hr := Hgate (PathError op (effectivePath g) errno)
                    (ConnectionInfo.setHost (hostOrDefault g) (connectionSettings g))).
    destruct (_ || _) in H, Hr; simpl in H; [discriminate |].
    destruct (Hr H) as (<- & Hc & Hp).
    split; [reflexivity |]. split; [apply hostOrDefault_set |].
    split; [apply Hc |]. right. auto.
  - unfold GetConnectionInfo in H.
    rewrite (ConfigFacts.finish_undecodable w g ct err Hf Hj) in H.
    rewrite ConfigFacts.insufficient_after_setHost in H.
    assert (Hr := Hgate (WrapError "error in config file %q: %w" [effectivePath g] err)
                    (ConnectionInfo.setHost (hostOrDefault g) (connectionSettings g))).
    destruct (_ || _) in H, Hr; simpl in H; [discriminate |].
    destruct (Hr H) as (<- & Hc & Hp).
    split; [reflexivity |]. split; [apply hostOrDefault_set |].
    split; [apply Hc |]. right. auto.
  - rewrite (ConfigFacts.decoded_config_resolves w g ct st Hf Hj) in H.
    simpl in H. inversion H; subst c.
    split; [reflexivity |]. split; [apply hostOrDefault_set |].
    split; [| left; eauto].
    unfold merged; simpl.
    destruct (String.eqb_spec (ConnectionInfo.Port (connectionSettings g)) "");
      [apply Itoa_not_empty | assumption].
Qed.

Lemma returned_descriptor_witness :
  let w := Worlds.world (Worlds.oneFile Worlds.defaultPath "{}") in
  let g := Worlds.flags "" "" "" "" "" in
  snd (GetConnectionInfo w g) = Ok (ConnectionInfo.Build "" "" "127.0.0.1" "0")
  /\ ConnectionInfo.Host (ConnectionInfo.Build "" "" "127.0.0.1" "0") = hostOrDefault g.
Proof.
  split; [reflexivity |].
  exact (proj1 (returned_descriptor
                  (Worlds.world (Worlds.oneFile Worlds.defaultPath "{}"))
                  (Worlds.flags "" "" "" "" "") _ eq_refl)).
Defined.

(** X20: whatever the outcome, a call of [GetConnectionInfo] leaves the
    path it read in [configPath], leaves [DefaultConfigPath] alone, leaves
    a non-empty host (the override or 127.0.0.1) and keeps every non-empty
    override; user, password and port change only when the file was read
    and decoded. *)
Theorem globals_after_resolution (w : World) (g : Globals) :
  let g' := fst (GetConnectionInfo w g) in
  configPath g' = effectivePath g
  /\ DefaultConfigPath g' = DefaultConfigPath g
  /\ ConnectionInfo.Host (connectionSettings g') = hostOrDefault g
  /\ overridesKept g (connectionSettings g')
  /\ ((exists content settings,
         files w (effectivePath g) = Content content
         /\ Unmarshal w content = Ok settings)
      \/ connectionSettings g'
         = ConnectionInfo.setHost (hostOrDefault g) (connectionSettings g)).
Proof.
  destruct (ConfigFacts.read_cases w g)
    as [(op & errno & Hf) | [(ct & err & Hf & Hj) | (ct & st & Hf & Hj)]].
  - unfold GetConnectionInfo.
    rewrite (ConfigFacts.finish_unreadable w g op errno Hf).
    destruct (_ || _); simpl;
      (split; [reflexivity |]; split; [reflexivity |]; split; [reflexivity |];
       split; [apply ConfigFacts.setHost_kept | right; reflexivity]).
  - unfold GetConnectionInfo.
    rewrite (ConfigFacts.finish_undecodable w g ct err Hf Hj).
    destruct (_ || _); simpl;
      (split; [reflexivity |]; split; [reflexivity |]; split; [reflexivity |];
       split; [apply ConfigFacts.setHost_kept | right; reflexivity]).
  - rewrite (ConfigFacts.decoded_config_resolves w g ct st Hf Hj). simpl.
    split; [reflexivity |]. split; [reflexivity |]. split; [reflexivity |].
    split; [apply ConfigFacts.merged_kept | left; eauto].
Qed.

End ConfigMore.

(** ** Properties of start-up *)

Module StartupFacts.
Import Go Config Startup Terms Vocabulary.

(** X5: [isWSLDistro] returns true exactly when [os.Lstat] of
    [/bin/wslpath] succeeds with the symbolic-link bit (bit 27) set,
    whatever the other mode bits are, and it panics exactly when [os.Lstat]
    fails with an error that is not a does-not-exist error. *)
Theorem isWSLDistro_true_or_panic (lstat : string -> LstatResult) :
  (isWSLDistro lstat = Returns true <->
   exists Mode, lstat "/bin/wslpath" = LstatInfo Mode /\ Z.testbit Mode 27 = true)
  /\ (isWSLDistro lstat = Panics nilDereference <->
      exists e, lstat "/bin/wslpath" = LstatError e
                /\ os_IsNotExist (Some e) = false).
Proof.
  unfold isWSLDistro.
  destruct (lstat "/bin/wslpath") as [Mode | e] eqn:E.
  - cbv beta iota zeta. unfold os_IsNotExist. rewrite ConfigFacts.symlink_bit.
    split; split.
    + intros H. exists Mode. split; [reflexivity | congruence].
    + intros (m & Hm & Hb). inversion Hm; subst. rewrite Hb. reflexivity.
    + discriminate.
    + intros (e & He & _). discriminate.
  - cbv beta iota zeta.
    destruct (os_IsNotExist (Some e)) eqn:N; split; split.
    + discriminate.
    + intros (m & Hm & _). discriminate.
    + discriminate.
    + intros (e' & He & Hn). inversion He; subst. congruence.
    + discriminate.
    + intros (m & Hm & _). discriminate.
    + intros _. exists e. split; [reflexivity | exact N].
    + reflexivity.
Qed.

(** *** Trimming *)

Lemma TrimRight_split (cutset s : string) :
  exists tail, s = TrimRight s cutset +:+ tail /\ onlyFrom cutset tail.
Proof.
  induction s as [| c rest (tail & Hs & Ht)].
  - exists EmptyString. split; [reflexivity | constructor].
  - cbn [TrimRight]. destruct (TrimRight rest cutset) as [| c' r'] eqn:T.
    + change (rest = tail) in Hs. subst tail.
      destruct (inCutset cutset c) eqn:Hc.
      * exists (String c rest). split; [reflexivity |].
        constructor; [exact Hc | exact Ht].
      * exists rest. split; [reflexivity | exact Ht].
    + exists tail. split; [| exact Ht].
      change (String c rest = String c (String c' r' +:+ tail)).
      rewrite <- Hs. reflexivity.
Qed.

Lemma TrimRight_last (cutset s : string) (x : ascii) :
  lastChar (TrimRight s cutset) = Some x -> inCutset cutset x = false.
Proof.
  induction s as [| c rest IH]; [discriminate |].
  cbn [TrimRight]. destruct (TrimRight rest cutset) as [| c' r'] eqn:T.
  - destruct (inCutset cutset c) eqn:Hc; [discriminate |].
    intros H. inversion H; subst. exact Hc.
  - intros H. apply IH. exact H.
Qed.

(** X6: when [cmd.exe] runs, [getAppDataPath] returns its output without
    the carriage returns and line feeds at the end: the output is the
    result followed by such characters only, and the result does not end
    with one; line ends inside the output stay. When the command fails,
    the error is returned. *)
Theorem getAppDataPath_trims (h : Host) :
  (forall outBuf, Run h "cmd.exe" ["/c"; subCommand] = Ok outBuf ->
     exists path tail,
       getAppDataPath h = Ok path
       /\ outBuf = path +:+ tail
       /\ onlyFrom crlf tail
       /\ forall c, lastChar path = Some c -> inCutset crlf c = false)
  /\ (forall err, Run h "cmd.exe" ["/c"; subCommand] = Err err ->
        getAppDataPath h = Err err).
Proof.
  unfold getAppDataPath. split.
  - intros outBuf ->.
    destruct (TrimRight_split crlf outBuf) as (tail & Hs & Ht).
    exists (TrimRight outBuf crlf), tail.
    split; [reflexivity |]. split; [exact Hs |]. split; [exact Ht |].
    intros c. apply TrimRight_last.
  - intros err ->. reflexivity.
Qed.

Lemma getAppDataPath_trims_witness :
  exists path tail,
    getAppDataPath wslHost = Ok path
    /\ "C:/Users/me/AppData/Roaming" +:+ crlf = path +:+ tail
    /\ onlyFrom crlf tail.
Proof.
  destruct (proj1 (getAppDataPath_trims wslHost) _ eq_refl)
    as (path & tail & H1 & H2 & H3 & _).
  exists path, tail. split; [exact H1 |]. split; [exact H2 | exact H3].
Defined.

(** X7: a path that [wslifyConfigDir] returns does not end with a carriage
    return or line feed, it is the output of [/bin/wslpath] without such
    characters at the end, and [/bin/wslpath] was run on an argument that
    does not end with one either. *)
Theorem wslifyConfigDir_result (h : Host) (dir : string) :
  wslifyConfigDir h = Ok dir ->
  (forall c, lastChar dir = Some c -> inCutset crlf c = false)
  /\ exists path outBuf tail,
       getAppDataPath h = Ok path
       /\ (forall c, lastChar path = Some c -> inCutset crlf c = false)
       /\ Run h "/bin/wslpath" [path] = Ok outBuf
       /\ outBuf = dir +:+ tail
       /\ onlyFrom crlf tail.
Proof.
  unfold wslifyConfigDir.
  destruct (getAppDataPath h) as [path | e] eqn:Hp; [| discriminate].
  destruct (Run h "/bin/wslpath" [path]) as [outBuf | e] eqn:Hr; [| discriminate].
  intros H. inversion H; subst dir.
  split; [intros c; apply TrimRight_last |].
  destruct (TrimRight_split crlf outBuf) as (tail & Hs & Ht).
  exists path, outBuf, tail.
  split; [reflexivity |]. split.
  - unfold getAppDataPath in Hp.
    destruct (Run h "cmd.exe" ["/c"; subCommand]); inversion Hp.
    intros c. apply TrimRight_last.
  - split; [exact Hr |]. split; [exact Hs | exact Ht].
Qed.

Lemma wslifyConfigDir_result_witness :
  wslifyConfigDir wslHost = Ok "/mnt/c/Users/me/AppData/Roaming"
  /\ forall c, lastChar "/mnt/c/Users/me/AppData/Roaming" = Some c ->
               inCutset crlf c = false.
Proof.
  split; [reflexivity |].
  exact (proj1 (wslifyConfigDir_result wslHost _ eq_refl)).
Defined.

(** X8: [DefineGlobalFlags] panics exactly on Linux when [os.Lstat] of
    [/bin/wslpath] fails with an error other than does-not-exist. On any
    other operating system neither [os.Lstat] nor a command is consulted:
    the outcome is decided by [paths.GetPaths] alone. *)
Theorem DefineGlobalFlags_panic (h : Host) :
  (DefineGlobalFlags h = Panicked nilDereference <->
   GOOS h = "linux"
   /\ exists e, Lstat h "/bin/wslpath" = LstatError e
                /\ os_IsNotExist (Some e) = false)
  /\ (GOOS h <> "linux" ->
      DefineGlobalFlags h =
        match GetPaths_AppHome h with
        | Err err => Fatal "failed to get paths: %s" err
        | Ok appHome =>
            Started {| connectionSettings := ConnectionInfo.Build "" "" "" "";
                       configPath := "";
                       DefaultConfigPath := Join h [appHome; "rd-engine.json"] |}
        end).
Proof.
  unfold DefineGlobalFlags. split.
  - destruct (String.eqb_spec (GOOS h) "linux") as [Hl | Hl].
    + unfold isWSLDistro.
      destruct (Lstat h "/bin/wslpath") as [Mode | e] eqn:E; cbv beta iota zeta.
      * split.
        -- unfold os_IsNotExist.
           destruct (Z.eqb _ _); [destruct (wslifyConfigDir h) |
                                  destruct (GetPaths_AppHome h)]; discriminate.
        -- intros (_ & e & He & _). discriminate.
      * destruct (os_IsNotExist (Some e)) eqn:N.
        -- split; [destruct (GetPaths_AppHome h); discriminate |].
           intros (_ & e' & He & Hn). inversion He; subst. congruence.
        -- split; [| reflexivity].
           intros _. split; [exact Hl |]. exists e. auto.
    + split; [destruct (GetPaths_AppHome h); discriminate |].
      intros [Hg _]. contradiction.
  - intros Hl. destruct (String.eqb_spec (GOOS h) "linux"); [contradiction |].
    reflexivity.
Qed.

Lemma DefineGlobalFlags_panic_witness :
  GOOS macHost <> "linux"
  /\ DefineGlobalFlags macHost
     = Started {| connectionSettings := ConnectionInfo.Build "" "" "" "";
                  configPath := "";
                  DefaultConfigPath :=
                    "/Users/me/Library/Application Support/rancher-desktop/rd-engine.json" |}.
Proof.
  split; [discriminate |].
  apply (proj2 (DefineGlobalFlags_panic macHost)). discriminate.
Defined.

(** X9: when [DefineGlobalFlags] returns, no override is set, the config
    path flag is empty and the default config path is
    [filepath.Join(configDir, "rd-engine.json")] for some directory; so a
    resolution that follows it without flags reads that path, and if the
    file cannot be read there it fails with the read error of that path. *)
Theorem fresh_start_reads_default_path (h : Host) (g : Globals) :
  DefineGlobalFlags h = Started g ->
  connectionSettings g = ConnectionInfo.Build "" "" "" ""
  /\ configPath g = ""
  /\ (exists configDir, DefaultConfigPath g = Join h [configDir; "rd-engine.json"])
  /\ effectivePath g = DefaultConfigPath g
  /\ forall w op errno,
       files w (DefaultConfigPath g) = Failure op errno ->
       snd (GetConnectionInfo w g) = Err (PathError op (DefaultConfigPath g) errno).
Proof.
  intros H.
  assert (Hshape : exists configDir,
             g = {| connectionSettings := ConnectionInfo.Build "" "" "" "";
                    configPath := "";
                    DefaultConfigPath := Join h [configDir; "rd-engine.json"] |}).
  { unfold DefineGlobalFlags in H.
    destruct (if String.eqb (GOOS h) "linux" then isWSLDistro (Lstat h)
              else Returns false) as [[|] | msg]; [| | discriminate].
    - destruct (wslifyConfigDir h) as [d | e]; [| discriminate].
      inversion H. eauto.
    - destruct (GetPaths_AppHome h) as [d | e]; [| discriminate].
      inversion H. eauto. }
  destruct Hshape as (configDir & ->).
  split; [reflexivity |]. split; [reflexivity |]. split; [eauto |].
  split; [reflexivity |].
  intros w op errno Hf.
  set (g := {| connectionSettings := ConnectionInfo.Build "" "" "" "";
               configPath := "";
               DefaultConfigPath := Join h [configDir; "rd-engine.json"] |}) in *.
  assert (Hf' : files w (effectivePath g) = Failure op errno) by exact Hf.
  unfold GetConnectionInfo.
  rewrite (ConfigFacts.finish_unreadable w g op errno Hf').
  change (effectivePath g) with (DefaultConfigPath g).
  rewrite String.eqb_refl. reflexivity.
Qed.

Lemma fresh_start_reads_default_path_witness :
  exists g,
    DefineGlobalFlags wslHost = Started g
    /\ DefaultConfigPath g
       = "/mnt/c/Users/me/AppData/Roaming/rancher-desktop/rd-engine.json"
    /\ snd (GetConnectionInfo (Worlds.world Worlds.noFile) g)
       = Err (PathError "open"
                "/mnt/c/Users/me/AppData/Roaming/rancher-desktop/rd-engine.json"
                ENOENT).
Proof.
  eexists. split; [reflexivity |]. split; [reflexivity |].
  exact (proj2 (proj2 (proj2 (proj2
           (fresh_start_reads_default_path wslHost _ eq_refl))))
           (Worlds.world Worlds.noFile) "open" ENOENT eq_refl).
Defined.

End StartupFacts.

(** ** Further properties of development-mode detection *)

Module DevModeMore.
Import Go Utils Walk Parents.

(** X10: [getParentDir] with a step count that is zero or negative returns
    the cleaned path; each further step takes the directory once more; and
    for a path that is already clean, the directories the loop of
    [DevMode] examines are [getParentDir] of the path with 1, 2, ...
    steps. *)
Theorem getParentDir_steps (sys : System) (Clean : string -> string) (p : string) :
  (forall steps, (steps <= 0)%Z -> getParentDir sys Clean p steps = Clean p)
  /\ (forall steps, (0 <= steps)%Z ->
        getParentDir sys Clean p (steps + 1)
          = Dir sys (getParentDir sys Clean p steps))
  /\ (Clean p = p ->
      forall k, ancestor sys p k = getParentDir sys Clean p (Z.of_nat (S k))).
Proof.
  unfold getParentDir. split; [| split].
  - intros steps H. replace (Z.to_nat steps) with 0 by lia. reflexivity.
  - intros steps H. replace (Z.to_nat (steps + 1)) with (S (Z.to_nat steps)) by lia.
    reflexivity.
  - intros Hc k. rewrite Nat2Z.id, Hc. apply DevModeFacts.ancestor_iter.
Qed.

Lemma getParentDir_steps_witness :
  let sys := unix noEnv "/opt/rd/bin/rdctl" [] in
  getParentDir sys (fun p => p) "/opt/rd/bin/rdctl" (-3) = "/opt/rd/bin/rdctl"
  /\ getParentDir sys (fun p => p) "/opt/rd/bin/rdctl" 2 = "/opt/rd"
  /\ ancestor sys "/opt/rd/bin/rdctl" 1 = "/opt/rd".
Proof.
  split; [| split].
  - apply (proj1 (getParentDir_steps (unix noEnv "/opt/rd/bin/rdctl" [])
                    (fun p => p) "/opt/rd/bin/rdctl")). lia.
  - reflexivity.
  - rewrite (proj2 (proj2 (getParentDir_steps (unix noEnv "/opt/rd/bin/rdctl" [])
                             (fun p => p) "/opt/rd/bin/rdctl")) eq_refl 1).
    reflexivity.
Defined.

(** X11: whenever a call of [DevMode] leaves a verdict in the cache, that
    verdict is the boolean it returned, with a nil error, and every later
    call returns it and leaves the cache as it is, in whatever environment
    and with whatever bound: later changes of [NODE_ENV] or of the file
    system are not seen. *)
Theorem cached_verdict_is_final (sys : System) (fuel : nat) (g g' : Globals)
    (b cached : bool) (err : option error) :
  DevMode sys fuel g = Some (g', (b, err)) ->
  devMode g' = Some cached ->
  b = cached /\ err = None
  /\ forall sys2 fuel2, DevMode sys2 fuel2 g' = Some (g', (cached, None)).
Proof.
  intros Hcall Hcache.
  assert (Hlater : forall sys2 fuel2, DevMode sys2 fuel2 g' = Some (g', (cached, None)))
    by (intros sys2 fuel2; apply DevModeFacts.DevMode_cached; exact Hcache).
  destruct g as [[c |]].
  - rewrite (DevModeFacts.DevMode_cached sys fuel {| devMode := Some c |} c eq_refl)
      in Hcall.
    inversion Hcall; subst. simpl in Hcache. inversion Hcache; subst. auto.
  - destruct (DevModeFacts.DevMode_fills_cache sys fuel g' (b, err) cached Hcall Hcache)
      as [_ Hr].
    inversion Hr; subst. auto.
Qed.

Lemma cached_verdict_is_final_witness :
  let checkout := unix noEnv "/home/dev/rd/bin/rdctl" ["/home/dev/rd"] in
  let later := unix noEnv "/opt/rdctl" [] in
  DevMode checkout 2 {| devMode := None |}
    = Some ({| devMode := Some true |}, (true, None))
  /\ DevMode later 5 {| devMode := Some true |}
     = Some ({| devMode := Some true |}, (true, None)).
Proof.
  split; [reflexivity |].
  exact (proj2 (proj2 (cached_verdict_is_final
                  (unix noEnv "/home/dev/rd/bin/rdctl" ["/home/dev/rd"]) 2
                  {| devMode := None |} {| devMode := Some true |} true true None
                  eq_refl eq_refl))
           (unix noEnv "/opt/rdctl" []) 5).
Defined.

(** X12: when [DevMode] returns an error, the boolean beside it is false,
    the cache was empty before the call and is still empty after it: a
    failure is never cached, and a call on a filled cache never fails. *)
Theorem errors_are_not_cached (sys : System) (fuel : nat) (g g' : Globals)
    (b : bool) (e : error) :
  DevMode sys fuel g = Some (g', (b, Some e)) ->
  b = false /\ g' = g /\ devMode g = None.
Proof.
  unfold DevMode. destruct g as [[c |]]; simpl; [discriminate |].
  destruct (LookupEnv sys "NODE_ENV") as [v |]; simpl.
  1: destruct (String.eqb v "development"); [discriminate |].
  all: destruct (Executable sys) as [link | e1];
    [destruct (EvalSymlinks sys link) as [p | e2];
     [destruct (ancestorLoop sys fuel p) as [[| v' | e3] |] |] |];
    intros H; inversion H; subst; auto.
Qed.

Lemma errors_are_not_cached_witness :
  let broken :=
    {| LookupEnv := noEnv;
       Executable := Err (PathError "readlink" "/proc/self/exe" EACCES);
       EvalSymlinks := fun p => Ok p;
       ReadDir := fun _ => Ok [];
       Dir := unixDir; Base := unixBase; Separator := "/" |} in
  let e := WrapError "failed to get path to rdctl symlink: %w" []
             (PathError "readlink" "/proc/self/exe" EACCES) in
  DevMode broken 0 {| devMode := None |} = Some ({| devMode := None |}, (false, Some e))
  /\ devMode {| devMode := None |} = None.
Proof.
  split; [reflexivity |].
  exact (proj2 (proj2 (errors_are_not_cached
     {| LookupEnv := noEnv;
        Executable := Err (PathError "readlink" "/proc/self/exe" EACCES);
        EvalSymlinks := fun p => Ok p;
        ReadDir := fun _ => Ok [];
        Dir := unixDir; Base := unixBase; Separator := "/" |}
     0 {| devMode := None |} {| devMode := None |} false _ eq_refl))).
Defined.

(** X13: the answer false that [DevMode] gives when the walk reaches the
    root is not cached: the cache is still empty after the call, so a
    later call decides anew and returns true once [NODE_ENV] is
    [development]. *)
Theorem root_answer_is_not_cached (sys : System) (fuel : nat) (link p : string)
    (k : nat) :
  ~ marked sys ->
  Executable sys = Ok link ->
  EvalSymlinks sys link = Ok p ->
  (forall i, i < k -> undecided sys (ancestor sys p i)) ->
  atRoot sys (ancestor sys p k) ->
  k < fuel ->
  DevMode sys fuel {| devMode := None |} = Some ({| devMode := None |}, (false, None))
  /\ forall sys2 fuel2,
       marked sys2 ->
       DevMode sys2 fuel2 {| devMode := None |}
         = Some ({| devMode := Some true |}, (true, None)).
Proof.
  intros Hm He Hs Hun Hroot Hk. split.
  - rewrite (DevModeFacts.DevMode_walk sys fuel link p Hm He Hs).
    rewrite (proj1 (DevModeFacts.loop_at sys p k fuel Hun Hk) Hroot). reflexivity.
  - intros sys2 fuel2 Hm2. apply DevModeFacts.DevMode_marked. exact Hm2.
Qed.

Lemma root_answer_is_not_cached_witness :
  let installed := unix noEnv "/rdctl" [] in
  ~ marked installed
  /\ atRoot installed (ancestor installed "/rdctl" 0)
  /\ DevMode installed 1 {| devMode := None |}
     = Some ({| devMode := None |}, (false, None)).
Proof.
  assert (Hm : ~ marked (unix noEnv "/rdctl" [])) by (intros H; discriminate H).
  split; [exact Hm |]. split; [reflexivity |].
  refine (proj1 (root_answer_is_not_cached (unix noEnv "/rdctl" []) 1
                   "/rdctl" "/rdctl" 0 Hm eq_refl eq_refl _ eq_refl _)).
  - intros i Hi. lia.
  - lia.
Defined.

(** X14: calling [DevMode] again in the same environment, from the cache
    the first call left, returns the same result and leaves the same
    cache. *)
Theorem DevMode_again (sys : System) (fuel : nat) (g g' : Globals)
    (r : bool * option error) :
  DevMode sys fuel g = Some (g', r) ->
  DevMode sys fuel g' = Some (g', r).
Proof.
  intros H. destruct g' as [[c |]].
  - destruct g as [[c0 |]].
    + rewrite (DevModeFacts.DevMode_cached sys fuel {| devMode := Some c0 |} c0 eq_refl)
        in H.
      inversion H; subst.
      apply DevModeFacts.DevMode_cached. reflexivity.
    + destruct (DevModeFacts.DevMode_fills_cache sys fuel _ r c H eq_refl) as [_ ->].
      apply DevModeFacts.DevMode_cached. reflexivity.
  - destruct g as [[c0 |]]; [| exact H].
    rewrite (DevModeFacts.DevMode_cached sys fuel {| devMode := Some c0 |} c0 eq_refl)
      in H.
    inversion H.
Qed.

Lemma DevMode_again_witness :
  let packaged := unix noEnv "/home/dev/rd/dist/rdctl" ["/home/dev/rd"] in
  DevMode packaged 1 {| devMode := None |}
    = Some ({| devMode := Some false |}, (false, None))
  /\ DevMode packaged 1 {| devMode := Some false |}
     = Some ({| devMode := Some false |}, (false, None)).
Proof.
  split; [reflexivity |].
  exact (DevMode_again (unix noEnv "/home/dev/rd/dist/rdctl" ["/home/dev/rd"]) 1
           {| devMode := None |} {| devMode := Some false |} (false, None) eq_refl).
Defined.

(** X15: when the first [k] ancestors decide nothing and the [k]-th is not
    the root, is not named [dist] and cannot be listed, [DevMode] fails
    with the error of [os.ReadDir] wrapped with the name of that
    directory, and leaves the cache empty; the ancestors above it are not
    looked at. *)
Theorem unreadable_ancestor_fails (sys : System) (fuel : nat) (link p : string)
    (k : nat) (err : error) :
  ~ marked sys ->
  Executable sys = Ok link ->
  EvalSymlinks sys link = Ok p ->
  (forall i, i < k -> undecided sys (ancestor sys p i)) ->
  ~ atRoot sys (ancestor sys p k) ->
  Base sys (ancestor sys p k) <> "dist" ->
  ReadDir sys (ancestor sys p k) = Err err ->
  k < fuel ->
  DevMode sys fuel {| devMode := None |}
    = Some ({| devMode := None |},
            (false, Some (WrapError "failed to read directory %q: %w"
                            [ancestor sys p k] err))).
Proof.
  intros Hm He Hs Hun Hroot Hbase Hread Hk.
  rewrite (DevModeFacts.DevMode_walk sys fuel link p Hm He Hs).
  replace fuel with (k + S (fuel - S k)) by lia.
  rewrite (DevModeFacts.loop_skip sys k (fuel - S k) p Hun
             (Some (Fails (WrapError "failed to read directory %q: %w"
                             [ancestor sys p k] err)))); [reflexivity |].
  rewrite DevModeFacts.ancestor_iter in *.
  simpl. unfold atRoot in Hroot.
  destruct (HasSuffix _ _); [congruence |].
  destruct (String.eqb_spec (Base sys (Dir sys (Nat.iter k (Dir sys) p))) "dist");
    [contradiction |].
  rewrite Hread. reflexivity.
Qed.

Lemma unreadable_ancestor_fails_witness :
  let locked :=
    {| LookupEnv := noEnv;
       Executable := Ok "/home/dev/rd/bin/rdctl";
       EvalSymlinks := fun p => Ok p;
       ReadDir := fun dir => Err (PathError "open" dir EACCES);
       Dir := unixDir; Base := unixBase; Separator := "/" |} in
  DevMode locked 1 {| devMode := None |}
    = Some ({| devMode := None |},
            (false, Some (WrapError "failed to read directory %q: %w"
                            ["/home/dev/rd/bin"]
                            (PathError "open" "/home/dev/rd/bin" EACCES)))).
Proof.
  intros locked.
  refine (unreadable_ancestor_fails locked 1 "/home/dev/rd/bin/rdctl"
            "/home/dev/rd/bin/rdctl" 0 _ _ eq_refl eq_refl _ _ _ eq_refl _).
  - intros H; discriminate H.
  - intros i Hi. lia.
  - intros H; discriminate H.
  - intros H; discriminate H.
  - lia.
Defined.

(** X21: the listing of a directory counts as a checkout only through an
    entry that is named [.git] and is a directory: the inner loop finds
    nothing exactly when every entry named [.git] is not a directory (as in
    a worktree or submodule, where [.git] is a file), and then an ancestor
    that is neither the root nor named [dist] decides nothing. *)
Theorem git_file_is_no_checkout (sys : System) (dir : string)
    (dirEntries : list DirEntry) :
  (hasGitDir dirEntries = false <->
   forall dirEntry, In dirEntry dirEntries -> Name dirEntry = ".git" ->
                    IsDir dirEntry = false)
  /\ (ReadDir sys dir = Ok dirEntries ->
      ~ atRoot sys dir -> Base sys dir <> "dist" ->
      hasGitDir dirEntries = false ->
      undecided sys dir).
Proof.
  assert (Hiff : hasGitDir dirEntries = false <->
                 forall dirEntry, In dirEntry dirEntries -> Name dirEntry = ".git" ->
                                  IsDir dirEntry = false).
  { split.
    - intros H e Hin Hn. destruct (IsDir e) eqn:Hd; [| reflexivity].
      assert (Ht : hasGitDir dirEntries = true)
        by (apply DevModeFacts.hasGitDir_true; eauto).
      congruence.
    - intros H. apply DevModeFacts.hasGitDir_false.
      intros e Hin [Hn Hd]. rewrite (H e Hin Hn) in Hd. discriminate. }
  split; [exact Hiff |].
  intros Hread Hroot Hbase Hno.
  split; [exact Hroot |]. split; [exact Hbase |].
  exists dirEntries. split; [exact Hread |].
  intros e Hin [Hn Hd]. rewrite (proj1 Hiff Hno e Hin Hn) in Hd. discriminate.
Qed.

Lemma git_file_is_no_checkout_witness :
  let worktree := [ {| Name := ".git"; IsDir := false |};
                    {| Name := "src"; IsDir := true |} ] in
  hasGitDir worktree = false
  /\ forall dirEntry, In dirEntry worktree -> Name dirEntry = ".git" ->
                      IsDir dirEntry = false.
Proof.
  split; [reflexivity |].
  exact (proj1 (proj1 (git_file_is_no_checkout (unix noEnv "/rdctl" []) "/"
                         [ {| Name := ".git"; IsDir := false |};
                           {| Name := "src"; IsDir := true |} ])) eq_refl).
Defined.

End DevModeMore.

(** ** Further properties of the path set *)

Module PathsMore.
Import Paths Terms.

Lemma fieldName_not_proto (f : Field) : fieldName f <> "__proto__".
Proof. destruct f; discriminate. Qed.

Lemma fields_start_empty (c : Class) (f : Field) :
  getter c (fieldName f) = None ->
  (list_to_map (map (fun f => (fieldName f, "")) (classFields c))
     : gmap string string) !! fieldName f = Some "".
Proof.
  destruct c, f; simpl; intros H; try discriminate H; reflexivity.
Qed.

Lemma getters_start_absent (c : Class) (key : string) :
  is_Some (getter c key) ->
  (list_to_map (map (fun f => (fieldName f, "")) (classFields c))
     : gmap string string) !! key = None.
Proof.
  unfold getter. intros [e He]. destruct c;
    repeat match type of He with
      | context [String.eqb key ?k] =>
          destruct (String.eqb_spec key k); [subst key; reflexivity |]
      end; discriminate He.
Qed.

(** An assignment sets the property it names and no other. *)
Lemma assignProperty_lookup (this mid : Instance) (k v key : string) :
  getter (class this) key = None ->
  key <> "__proto__" ->
  assignProperty this k v = Normal mid ->
  own mid !! key = if String.eqb k key then Some v else own this !! key.
Proof.
  intros Hg Hp. unfold assignProperty.
  destruct (String.eqb_spec k key) as [-> | Hne].
  - destruct (own this !! key) eqn:Ho.
    + intros H; inversion H; simpl. apply lookup_insert_eq.
    + rewrite Hg. destruct (String.eqb_spec key "__proto__"); [contradiction |].
      intros H; inversion H; simpl. apply lookup_insert_eq.
  - destruct (own this !! k).
    + intros H; inversion H; simpl. apply lookup_insert_ne. exact Hne.
    + destruct (getter (class this) k); [discriminate |].
      destruct (String.eqb k "__proto__"); intros H; inversion H; simpl;
        [reflexivity | apply lookup_insert_ne; exact Hne].
Qed.

Lemma Object_assign_lookup (pathsData : list (string * string)) :
  forall (this this' : Instance) (key : string),
    getter (class this) key = None ->
    key <> "__proto__" ->
    Object_assign this pathsData = Normal this' ->
    own this' !! key = lastBinding key pathsData (own this !! key).
Proof.
  induction pathsData as [| [k v] rest IH]; intros this this' key Hg Hp; simpl.
  - intros H; inversion H; reflexivity.
  - destruct (assignProperty this k v) as [mid |] eqn:Hmid; [| discriminate].
    intros H.
    pose proof (PathsFacts.assignProperty_class _ _ _ _ Hmid) as Hc.
    rewrite (IH mid this' key) by (try rewrite Hc; assumption).
    rewrite (assignProperty_lookup this mid k v key Hg Hp Hmid). reflexivity.
Qed.

Lemma lastBinding_some (key : string) (pathsData : list (string * string)) :
  forall init, is_Some init -> is_Some (lastBinding key pathsData init).
Proof.
  induction pathsData as [| [k v] rest IH]; intros init Hi; simpl; [exact Hi |].
  apply IH. destruct (String.eqb k key); [eexists; reflexivity | exact Hi].
Qed.

Lemma new_field_value (c : Class) (pathsData : list (string * string))
    (this : Instance) (f : Field) :
  new c pathsData = Normal this ->
  getter c (fieldName f) = None ->
  get this f = Normal (lastBinding (fieldName f) pathsData (Some "")).
Proof.
  intros Hnew Hg.
  pose proof (PathsFacts.new_class c pathsData this Hnew) as Hc.
  unfold new in Hnew.
  pose proof (Object_assign_lookup pathsData
                {| class := c;
                   own := list_to_map
                            (map (fun f => (fieldName f, "")) (classFields c)) |}
                this (fieldName f) Hg (fieldName_not_proto f) Hnew) as Ho.
  simpl own in Ho. rewrite (fields_start_empty c f Hg) in Ho.
  unfold get. rewrite Ho.
  destruct (lastBinding_some (fieldName f) pathsData (Some "")
              ltac:(eexists; reflexivity)) as [v ->].
  reflexivity.
Qed.

(** X16: on every instance [getPaths] returns, a field the class has no
    getter for reads as the value of the last entry of the path data under
    its name, and as the empty string when the path data does not mention
    it; no field of the interface ever reads as [undefined]. *)
Theorem field_values (proc : Process) (this : Instance) (f : Field) :
  getPaths proc = Normal this ->
  (getter (class this) (fieldName f) = None ->
   get this f = Normal (lastBinding (fieldName f) (loadPathsData proc) (Some "")))
  /\ get this f <> Normal None.
Proof.
  intros H.
  assert (Hnew : new (class this) (loadPathsData proc) = Normal this).
  { unfold getPaths in H.
    destruct (String.eqb (platform proc) "darwin");
      [rewrite (PathsFacts.new_class _ _ _ H); exact H |].
    destruct (String.eqb (platform proc) "linux");
      [rewrite (PathsFacts.new_class _ _ _ H); exact H |].
    destruct (String.eqb (platform proc) "win32");
      [rewrite (PathsFacts.new_class _ _ _ H); exact H | discriminate]. }
  assert (Hval : getter (class this) (fieldName f) = None ->
                 get this f
                   = Normal (lastBinding (fieldName f) (loadPathsData proc) (Some "")))
    by (apply new_field_value; exact Hnew).
  split; [exact Hval |].
  destruct (getter (class this) (fieldName f)) as [e |] eqn:Hg.
  - rewrite (proj2 (PathsFacts.new_get_throws _ _ this f e Hnew Hg)). discriminate.
  - rewrite (Hval eq_refl).
    destruct (lastBinding_some (fieldName f) (loadPathsData proc) (Some "")
                ltac:(eexists; reflexivity)) as [v ->].
    discriminate.
Qed.

Lemma field_values_witness :
  exists this,
    getPaths (Machines.process "win32" (Machines.helperPrints "logs" "C:/logs"))
      = Normal this
    /\ get this logs = Normal (Some "C:/logs")
    /\ get this cache = Normal (Some "").
Proof.
  eexists. split; [reflexivity |]. split.
  - exact (proj1 (field_values
                    (Machines.process "win32" (Machines.helperPrints "logs" "C:/logs"))
                    _ logs eq_refl) eq_refl).
  - exact (proj1 (field_values
                    (Machines.process "win32" (Machines.helperPrints "logs" "C:/logs"))
                    _ cache eq_refl) eq_refl).
Defined.

Lemma Object_assign_first_getter (pathsData : list (string * string)) :
  forall this,
    gettersAbsent this ->
    match firstGetterKey (class this) pathsData with
    | Some (key, _) => Object_assign this pathsData = Throw (onlyGetter key)
    | None => exists this', Object_assign this pathsData = Normal this'
    end.
Proof.
  unfold firstGetterKey.
  induction pathsData as [| [k v] rest IH]; intros this Habs; simpl.
  - eauto.
  - destruct (getter (class this) k) as [e |] eqn:Hg.
    + unfold assignProperty.
      rewrite (Habs k (ex_intro _ e Hg)), Hg. reflexivity.
    + assert (exists mid, assignProperty this k v = Normal mid) as [mid Hmid].
      { unfold assignProperty. rewrite Hg.
        destruct (own this !! k); [eauto |].
        destruct (String.eqb k "__proto__"); eauto. }
      rewrite Hmid.
      pose proof (PathsFacts.assignProperty_class _ _ _ _ Hmid) as Hc.
      assert (Hmidabs : gettersAbsent mid).
      { intros key Hk. rewrite Hc in Hk.
        exact (PathsFacts.assignProperty_getter_name this mid k v key
                 (Habs key Hk) Hk Hmid). }
      specialize (IH mid Hmidabs). rewrite Hc in IH. exact IH.
Qed.

Lemma new_by_first_getter_key (c : Class) (pathsData : list (string * string)) :
  match firstGetterKey c pathsData with
  | Some (key, _) => new c pathsData = Throw (onlyGetter key)
  | None => exists this, new c pathsData = Normal this /\ class this = c
  end.
Proof.
  pose proof (Object_assign_first_getter pathsData
                {| class := c;
                   own := list_to_map
                            (map (fun f => (fieldName f, "")) (classFields c)) |}
                (getters_start_absent c)) as H.
  simpl class in H. unfold new.
  destruct (firstGetterKey c pathsData) as [[key value] |]; [exact H |].
  destruct H as [this Hthis]. exists this. split; [exact Hthis |].
  exact (PathsFacts.new_class c pathsData this Hthis).
Qed.

(** X17: the constructor of either class throws exactly when a key of the
    path data is the name of one of its getters; it then throws the
    [TypeError] of the first such key, and otherwise returns an instance of
    the class. *)
Theorem new_first_getter_key (c : Class) (pathsData : list (string * string)) :
  match firstGetterKey c pathsData with
  | Some (key, _) => new c pathsData = Throw (onlyGetter key)
  | None => exists this, new c pathsData = Normal this /\ class this = c
  end.
Proof.
  pose proof (Object_assign_first_getter pathsData
                {| class := c;
                   own := list_to_map
                            (map (fun f => (fieldName f, "")) (classFields c)) |}
                (getters_start_absent c)) as H.
  simpl class in H. unfold new.
  destruct (firstGetterKey c pathsData) as [[key value] |]; [exact H |].
  destruct H as [this Hthis]. exists this. split; [exact Hthis |].
  exact (PathsFacts.new_class c pathsData this Hthis).
Qed.

Lemma loadPathsData_cases (proc : Process) :
  helperAnswered proc (loadPathsData proc)
  \/ loadPathsData proc = fallbackData proc.
Proof.
  unfold helperAnswered, loadPathsData, fallbackData.
  destruct (status (spawnSync proc (getRdctlPath proc) ["paths"])) as [[| z | z] |];
    try (right; reflexivity).
  destruct (JSON_parse proc (stdout (spawnSync proc (getRdctlPath proc) ["paths"])));
    [left; split; reflexivity | right; reflexivity].
Qed.

Lemma fallback_has_no_getter_key (proc : Process) (c : Class) :
  firstGetterKey c (fallbackData proc) = None.
Proof. destruct c; reflexivity. Qed.

(** X18: on a supported platform, when the helper does not exit with
    status 0 or prints text that does not parse, [getPaths] still returns
    an instance: its [resources] and [logs] are the directories
    [resources] and [script_logs] under the working directory, and every
    other field the class has no getter for is the empty string. *)
Theorem helper_failure_falls_back (proc : Process) :
  supported (platform proc) ->
  (let result := spawnSync proc (getRdctlPath proc) ["paths"] in
   status result <> Some 0%Z \/ JSON_parse proc (stdout result) = None) ->
  exists this,
    getPaths proc = Normal this
    /\ get this resources = Normal (Some (path_join proc [cwd proc; "resources"]))
    /\ get this logs = Normal (Some (path_join proc [cwd proc; "script_logs"]))
    /\ forall f, f <> resources -> f <> logs ->
         getter (class this) (fieldName f) = None ->
         get this f = Normal (Some "").
Proof.
  intros Hsup Hfail.
  assert (Hdata : loadPathsData proc = fallbackData proc).
  { unfold loadPathsData, fallbackData. cbv zeta in Hfail.
    destruct (status (spawnSync proc (getRdctlPath proc) ["paths"])) as [[| z | z] |];
      try reflexivity.
    destruct Hfail as [Hs | ->]; [congruence | reflexivity]. }
  assert (Hsel : exists c, getPaths proc = new c (loadPathsData proc)).
  { destruct Hsup as [Hp | [Hp | Hp]].
    - exists UnixPaths. apply PathsFacts.getPaths_unix. left. exact Hp.
    - exists UnixPaths. apply PathsFacts.getPaths_unix. right. exact Hp.
    - exists WindowsPaths. apply PathsFacts.getPaths_windows. exact Hp. }
  destruct Hsel as [c Hsel]. rewrite Hdata in Hsel.
  destruct (PathsFacts.new_returns c (fallbackData proc)) as (this & Hnew & Hc).
  { intros key value [H | [H | []]]; inversion H; destruct c; reflexivity. }
  exists this. rewrite Hsel. split; [exact Hnew |].
  split; [| split].
  - rewrite (new_field_value c _ this resources Hnew) by (destruct c; reflexivity).
    reflexivity.
  - rewrite (new_field_value c _ this logs Hnew) by (destruct c; reflexivity).
    reflexivity.
  - intros f Hr Hl Hg. rewrite Hc in Hg.
    rewrite (new_field_value c _ this f Hnew Hg).
    destruct f; try contradiction; reflexivity.
Qed.

Lemma helper_failure_falls_back_witness :
  exists this,
    getPaths (Machines.process "linux" Machines.noHelper) = Normal this
    /\ get this resources = Normal (Some "/src/rd/resources")
    /\ get this logs = Normal (Some "/src/rd/script_logs").
Proof.
  destruct (helper_failure_falls_back (Machines.process "linux" Machines.noHelper))
    as (this & H1 & H2 & H3 & _).
  - right. left. reflexivity.
  - left. discriminate.
  - exists this. split; [exact H1 |]. split; [exact H2 | exact H3].
Defined.

(** X19: [getPaths] throws in two cases only: the platform is not one of
    [darwin], [linux] and [win32], and the exception is the
    unsupported-platform [Error]; or the platform is supported, the helper
    answered, and a key of its answer is the name of a getter of the
    selected class, and the exception is the [TypeError] of the first such
    key. A helper that fails never makes [getPaths] throw. *)
Theorem getPaths_throws (proc : Process) (e : Exception) :
  getPaths proc = Throw e ->
  (~ supported (platform proc)
   /\ e = Error ("Platform " +:+ quoted (platform proc) +:+ " is not supported."))
  \/ (supported (platform proc)
      /\ helperAnswered proc (loadPathsData proc)
      /\ exists c key value,
           getPaths proc = new c (loadPathsData proc)
           /\ firstGetterKey c (loadPathsData proc) = Some (key, value)
           /\ e = onlyGetter key).
Proof.
  intros H.
  assert (Hnew : forall c, getPaths proc = new c (loadPathsData proc) ->
            helperAnswered proc (loadPathsData proc)
            /\ exists c key value,
                 getPaths proc = new c (loadPathsData proc)
                 /\ firstGetterKey c (loadPathsData proc) = Some (key, value)
                 /\ e = onlyGetter key).
  { intros c Hsel.
    pose proof (new_by_first_getter_key c (loadPathsData proc)) as Hk.
    rewrite Hsel in H.
    destruct (firstGetterKey c (loadPathsData proc)) as [[key value] |] eqn:Hf.
    - split.
      + destruct (loadPathsData_cases proc) as [Ha | Hfb]; [exact Ha |].
        rewrite Hfb, fallback_has_no_getter_key in Hf. discriminate.
      + exists c, key, value. split; [exact Hsel |]. split; [exact Hf | congruence].
    - destruct Hk as (this & Hthis & _). congruence. }
  destruct (String.eqb_spec (platform proc) "darwin") as [Hd | Hd].
  { right. split; [left; exact Hd |].
    apply (Hnew UnixPaths). apply PathsFacts.getPaths_unix. left. exact Hd. }
  destruct (String.eqb_spec (platform proc) "linux") as [Hl | Hl].
  { right. split; [right; left; exact Hl |].
    apply (Hnew UnixPaths). apply PathsFacts.getPaths_unix. right. exact Hl. }
  destruct (String.eqb_spec (platform proc) "win32") as [Hw | Hw].
  { right. split; [right; right; exact Hw |].
    apply (Hnew WindowsPaths). apply PathsFacts.getPaths_windows. exact Hw. }
  left. split; [intros [? | [? | ?]]; contradiction |].
  unfold getPaths in H.
  destruct (String.eqb_spec (platform proc) "darwin"); [contradiction |].
  destruct (String.eqb_spec (platform proc) "linux"); [contradiction |].
  destruct (String.eqb_spec (platform proc) "win32"); [contradiction |].
  inversion H. reflexivity.
Qed.

Lemma getPaths_throws_witness :
  getPaths (Machines.process "darwin" (Machines.helperPrints "wslDistro" "x"))
    = Throw (onlyGetter "wslDistro")
  /\ supported "darwin".
Proof.
  split; [reflexivity |].
  destruct (getPaths_throws
              (Machines.process "darwin" (Machines.helperPrints "wslDistro" "x"))
              (onlyGetter "wslDistro") eq_refl)
    as [[Hn _] | [Hs _]].
  - exfalso. apply Hn. left. reflexivity.
  - exact Hs.
Defined.

End PathsMore.
